(** * index.js: a URL-shortening Worker over a key-value namespace

    Shallow embedding of [src/index.js].  The module exports one object
    with the methods [fetch], [handleRedirect], [handleCreate],
    [isValidUrl], [generateRandomId] and [serveStaticFile]; each of them
    is a definition of the same name below.

    Runtime objects the code touches are modelled as follows.
    - [env.URL_KV] is a finite map from keys to values ([gmap string
      string]); [get] answers [null] for a missing key and may reject
      (the namespace cannot be reached).
    - [ctx.waitUntil(env.URL_KV.put(k, v))] starts a write that lands
      (or is lost) after the response: the started writes are kept in a
      queue and applied by the transition relation [env_step].
    - Numbers are binary64: a finite one is the rational it denotes,
      [Math.random()] returns the next element of a sequence of reals
      as a binary64 number, and a product is the exact product rounded
      to nearest, ties to even ([Binary64.mul]).
    - [new URL(s)] follows the URL Standard's basic parser as far as the
      scheme; the authority part is a parameter of the development, and
      so is the URL serializer.
    - [Response] objects are records; [Response.redirect(u, s)] parses
      [u], throws when that fails, and answers with the serialized URL
      in [location].
    - exceptions and [try]/[catch] are the [Throw] outcome of the monad
      [M] and the combinator [try_catch]. *)

From Stdlib Require Import String Ascii ZArith QArith Qround Qabs List Lia Lqa Bool.
From stdpp Require Import base option gmap strings.
Import ListNotations.

Local Open Scope string_scope.

(** ** JavaScript strings and values *)

Module Js.

(** [s.charAt(i)]: the one-character string at index [i], or the empty
    string when [i] is out of range. *)
Definition charAt (s : string) (i : Z) : string :=
  if (i <? 0)%Z then ""
  else match String.get (Z.to_nat i) s with
       | Some c => String c ""
       | None => ""
       end.

(** [s.slice(1)] *)
Definition slice1 (s : string) : string :=
  match s with
  | "" => ""
  | String _ rest => rest
  end.

(** A value that is a string or is missing ([undefined] for a property
    that is not there, [null] for a key the namespace does not hold). *)
Definition value := option string.

(** ToBoolean: [undefined], [null] and the empty string are falsy. *)
Definition truthy (v : value) : bool :=
  match v with
  | None => false
  | Some s => negb (String.eqb s "")
  end.

(** ToBoolean on a string. *)
Definition truthy_str (s : string) : bool := negb (String.eqb s "").

(** ToString of a value that is a string or [undefined]. *)
Definition ToString (v : value) : string :=
  match v with
  | None => "undefined"
  | Some s => s
  end.

(** [Math.floor] of a finite Number, given as the rational it denotes. *)
Definition Math_floor (x : Q) : Z := Qfloor x.

End Js.

(** ** Numbers

    A finite binary64 number is the rational it denotes.  Overflow is
    not modelled: the results below stay far under 2^1024. *)

Module Binary64.

(** [two_pow e] is 2^e. *)
Definition two_pow (e : Z) : Q :=
  if (0 <=? e)%Z then inject_Z (2 ^ e) else 1 # Z.to_pos (2 ^ (- e)).

(** The exponent of the binade of [x], the [e] with 2^e <= |x| < 2^(e+1),
    and -1022 for the subnormal numbers and zero. *)
Definition exponent (x : Q) : Z :=
  Z.max (Z.log2 (Qfloor (Qabs x * two_pow 1074)%Q) - 1074) (-1022).

(** The distance between the binary64 numbers around [x]: they have 53
    significant bits. *)
Definition ulp (x : Q) : Q := two_pow (exponent x - 52).

(** The nearest integer, a tie going to the even one. *)
Definition nearest_even (y : Q) : Z :=
  let f := Qfloor y in
  match Qcompare (y - inject_Z f)%Q (1 # 2)%Q with
  | Lt => f
  | Gt => (f + 1)%Z
  | Eq => if Z.even f then f else (f + 1)%Z
  end.

(** The integer part. *)
Definition toward_zero (y : Q) : Z :=
  if Qle_bool 0 y then Qfloor y else Qceiling y.

(** [x] rounded to a multiple of [ulp x]. *)
Definition round (to_integer : Q -> Z) (x : Q) : Q :=
  (inject_Z (to_integer (x / ulp x)%Q) * ulp x)%Q.

(** The binary64 product [x * y] of two binary64 numbers: the exact
    product rounded to nearest, ties to even. *)
Definition mul (x y : Q) : Q := round nearest_even (x * y)%Q.

(** The binary64 number at or next to [x] towards zero; [x] itself when
    it is a binary64 number. *)
Definition of_real (x : Q) : Q := round toward_zero x.

End Binary64.

(** ** Character classes *)

Definition is_lower (c : ascii) : bool :=
  (97 <=? nat_of_ascii c)%nat && (nat_of_ascii c <=? 122)%nat.
Definition is_upper (c : ascii) : bool :=
  (65 <=? nat_of_ascii c)%nat && (nat_of_ascii c <=? 90)%nat.
Definition is_digit (c : ascii) : bool :=
  (48 <=? nat_of_ascii c)%nat && (nat_of_ascii c <=? 57)%nat.
Definition is_alpha (c : ascii) : bool := is_lower c || is_upper c.
Definition is_alnum (c : ascii) : bool := is_alpha c || is_digit c.

Definition to_lower (c : ascii) : ascii :=
  if is_upper c then ascii_of_nat (nat_of_ascii c + 32) else c.

(** ** The URL constructor

    [new URL(s)] without a base.  The URL Standard's parser strips
    leading and trailing C0 controls and spaces, removes tabs and
    newlines, and then runs its state machine.  The scheme start state
    and the scheme state are followed here; with no base URL every input
    that leaves them without a scheme is a failure.  After a non-special
    scheme, a remainder that does not start with two slashes goes to the
    path state or the opaque path state, neither of which fails, and the
    URL has a null host.  Everything else (special schemes, and an
    authority after a non-special scheme) needs host parsing, which is
    left to the parameter [parse_authority]. *)

Record URLRecord := mkURL {
  url_scheme : string;
  url_host : option string   (* [None] is the null host *)
}.

Module UrlSyntax.

Definition is_c0_or_space (c : ascii) : bool := (nat_of_ascii c <=? 32)%nat.

Definition is_tab_or_newline (c : ascii) : bool :=
  (nat_of_ascii c =? 9)%nat || (nat_of_ascii c =? 10)%nat
  || (nat_of_ascii c =? 13)%nat.

Fixpoint strip_leading (s : string) : string :=
  match s with
  | "" => ""
  | String c rest => if is_c0_or_space c then strip_leading rest else s
  end.

Fixpoint strip_trailing (s : string) : string :=
  match s with
  | "" => ""
  | String c rest =>
      let rest' := strip_trailing rest in
      if is_c0_or_space c && String.eqb rest' "" then "" else String c rest'
  end.

Fixpoint remove_tab_newline (s : string) : string :=
  match s with
  | "" => ""
  | String c rest =>
      if is_tab_or_newline c then remove_tab_newline rest
      else String c (remove_tab_newline rest)
  end.

Definition is_scheme_char (c : ascii) : bool :=
  is_alnum c || Ascii.eqb c "+" || Ascii.eqb c "-" || Ascii.eqb c ".".

(** Scheme state: the buffer collects the lowercased scheme until the
    colon; any other character (or the end of the input) restarts in
    the no-scheme state, which fails without a base. *)
Fixpoint scheme_state (buffer input : string) : option (string * string) :=
  match input with
  | "" => None
  | String c rest =>
      if is_scheme_char c then scheme_state (buffer ++ String (to_lower c) "") rest
      else if Ascii.eqb c ":" then Some (buffer, rest)
      else None
  end.

(** Scheme start state. *)
Definition scheme_start_state (input : string) : option (string * string) :=
  match input with
  | "" => None
  | String c rest =>
      if is_alpha c then scheme_state (String (to_lower c) "") rest else None
  end.

Definition special_schemes : list string :=
  ["ftp"; "file"; "http"; "https"; "ws"; "wss"].

Definition is_special (scheme : string) : bool :=
  existsb (String.eqb scheme) special_schemes.

Definition starts_with_two_slashes (s : string) : bool :=
  match s with
  | String "/" (String "/" _) => true
  | _ => false
  end.

End UrlSyntax.

(** ** Responses and requests *)

Inductive Body :=
| NoBody
| Text (s : string)
| Json (shortUrl longUrl : string)   (* [JSON.stringify({ shortUrl, longUrl })] *)
| Html.                              (* the page of [serveStaticFile] *)

Record Response := mkResponse {
  body : Body;
  status : Z;
  content_type : option string;
  location : option string
}.

(** The [Content-Type] a body brings along when the headers give none:
    a string body is text. *)
Definition body_type (b : Body) : option string :=
  match b with
  | Text _ => Some "text/plain;charset=UTF-8"
  | _ => None
  end.

(** [new Response(b, { status: s })] *)
Definition new_Response (b : Body) (s : Z) : Response :=
  mkResponse b s (body_type b) None.

(** The response that [Response.redirect] builds: no body, the status
    and a [Location] header. *)
Definition redirect_to (location : string) (s : Z) : Response :=
  mkResponse NoBody s None (Some location).

(** The statuses [Response.redirect] accepts. *)
Definition redirect_statuses : list Z := [301; 302; 303; 307; 308]%Z.

(** What [await request.json()] followed by the destructuring
    [const { longUrl, customId } = ...] can see of a request body.
    - [BodySyntaxError]: the text is not JSON, [request.json()] rejects.
    - [BodyNull]: the text is the JSON [null], destructuring throws.
    - [BodyObject longUrl customId]: the two properties.  [customId] is
      [None] when the property is missing.  [longUrl] is only ever used
      through [new URL(longUrl)] before it is known to be a string, and
      [new URL] converts its argument with ToString; a missing [longUrl]
      is therefore the string ["undefined"] here. *)
Inductive JsonBody :=
| BodySyntaxError
| BodyNull
| BodyObject (longUrl : string) (customId : Js.value).

Record Request := mkRequest {
  method : string;
  pathname : string;   (* [new URL(request.url).pathname] *)
  origin : string;     (* [new URL(request.url).origin] *)
  json_body : JsonBody
}.

(** ** The world a request runs in *)

Record World := mkWorld {
  URL_KV : gmap string string;              (* the namespace's content *)
  kv_reachable : bool;                      (* do reads of the namespace answer? *)
  entropy : nat -> Q;                       (* the reals [Math.random()] draws, in order *)
  draws : nat;                              (* how many of them were consumed *)
  waitUntil_queue : list (string * string); (* writes started and not yet landed *)
  console : list string                     (* lines of [console.error] *)
}.

Definition set_kv (kv : gmap string string) (w : World) : World :=
  mkWorld kv (kv_reachable w) (entropy w) (draws w) (waitUntil_queue w) (console w).
Definition set_draws (n : nat) (w : World) : World :=
  mkWorld (URL_KV w) (kv_reachable w) (entropy w) n (waitUntil_queue w) (console w).
Definition set_queue (q : list (string * string)) (w : World) : World :=
  mkWorld (URL_KV w) (kv_reachable w) (entropy w) (draws w) q (console w).
Definition set_console (c : list string) (w : World) : World :=
  mkWorld (URL_KV w) (kv_reachable w) (entropy w) (draws w) (waitUntil_queue w) c.

Inductive Exn := SyntaxError | TypeError | RangeError | KVError.

Inductive Outcome (A : Type) :=
| Ret (a : A)
| Throw (e : Exn).
Arguments Ret {A} a.
Arguments Throw {A} e.

(** Computations: a state monad over [World] whose result is a value or
    an exception; the state survives a throw. *)
Definition M (A : Type) : Type := World -> Outcome A * World.

Definition ret {A} (a : A) : M A := fun w => (Ret a, w).

Definition throw {A} (e : Exn) : M A := fun w => (Throw e, w).

Definition bind {A B} (m : M A) (k : A -> M B) : M B :=
  fun w =>
    match m w with
    | (Ret a, w') => k a w'
    | (Throw e, w') => (Throw e, w')
    end.

(** [try { m } catch (error) { handler }] *)
Definition try_catch {A} (m : M A) (handler : Exn -> M A) : M A :=
  fun w =>
    match m w with
    | (Ret a, w') => (Ret a, w')
    | (Throw e, w') => handler e w'
    end.

Declare Scope js_scope.
Delimit Scope js_scope with js.
Notation "x <- m ;; k" := (bind m (fun x => k))
  (at level 100, m at next level, right associativity) : js_scope.
Notation "m ;;; k" := (bind m (fun _ => k))
  (at level 100, right associativity) : js_scope.
Local Open Scope js_scope.

(** [Math.random()]: the next element of the sequence as a Number, that
    is, cut to a binary64 number (and unchanged when it is one). *)
Definition Math_random : M Q :=
  fun w =>
    (Ret (Binary64.of_real (entropy w (draws w))), set_draws (S (draws w)) w).

(** [await env.URL_KV.get(key)] *)
Definition KV_get (key : string) : M Js.value :=
  fun w =>
    if kv_reachable w then (Ret (URL_KV w !! key), w)
    else (Throw KVError, w).

(** [ctx.waitUntil(env.URL_KV.put(key, value))] *)
Definition waitUntil_put (key value : string) : M unit :=
  fun w => (Ret tt, set_queue (waitUntil_queue w ++ [(key, value)]) w).

(** [console.error(line, error)] *)
Definition console_error (line : string) : M unit :=
  fun w => (Ret tt, set_console (console w ++ [line]) w).

(** [await request.json()] and the destructuring of its result. *)
Definition request_json (request : Request) : M (string * Js.value) :=
  match json_body request with
  | BodySyntaxError => throw SyntaxError
  | BodyNull => throw TypeError
  | BodyObject longUrl customId => ret (longUrl, customId)
  end.

(** An instance of the host-parsing parameter for the examples: it
    accepts only [//host] or [//host/...] where [host] is made of
    dot-separated labels of ASCII letters, inputs that the URL
    Standard's host parser accepts as well, and rejects the rest. *)
Module SampleAuthority.

Fixpoint host_ok (after_letter : bool) (s : string) : bool :=
  match s with
  | "" => after_letter
  | String c rest =>
      if is_alpha c then host_ok true rest
      else if Ascii.eqb c "." then after_letter && host_ok false rest
      else false
  end.

Fixpoint up_to_slash (s : string) : string :=
  match s with
  | "" => ""
  | String c rest => if Ascii.eqb c "/" then "" else String c (up_to_slash rest)
  end.

Fixpoint lowercase (s : string) : string :=
  match s with
  | "" => ""
  | String c rest => String (to_lower c) (lowercase rest)
  end.

Definition parse (scheme rest : string) : option URLRecord :=
  match rest with
  | String "/" (String "/" after) =>
      let host := up_to_slash after in
      if host_ok false host then Some (mkURL scheme (Some (lowercase host)))
      else None
  | _ => None
  end.

(** The URL serializer for the examples, whose URLs are lower-case and
    have an empty path or the path [/]: on those the URL Standard's
    serializer gives a special scheme the path [/] when there is none,
    and changes nothing else. *)
Definition href (input : string) : string :=
  match UrlSyntax.scheme_start_state input with
  | Some (scheme, String "/" (String "/" after)) =>
      if UrlSyntax.is_special scheme && String.eqb (up_to_slash after) after
      then input ++ "/"
      else input
  | _ => input
  end.

End SampleAuthority.

(** Worlds and requests for the examples. *)
Module Sample.

(** Every call of [Math.random()] returns 0. *)
Definition zeros : nat -> Q := fun _ => 0%Q.

(** An empty namespace. *)
Definition fresh : World := mkWorld ∅ true zeros 0 [] [].

(** A namespace that holds one link, under the key ["aaaaaa"]. *)
Definition taken : World :=
  mkWorld {[ "aaaaaa" := "https://old.example/" ]} true zeros 0 [] [].

(** The same namespace when its reads fail. *)
Definition unreachable : World :=
  mkWorld {[ "aaaaaa" := "https://old.example/" ]} false zeros 0 [] [].

(** A namespace that holds a link whose URL was given without a path. *)
Definition bare : World :=
  mkWorld {[ "docs" := "https://new.example" ]} true zeros 0 [] [].


(** A namespace with a value that is no URL and an empty value, as
    something other than this Worker could have written them. *)
Definition foreign : World :=
  mkWorld {[ "junk" := "not a url"; "blank" := "" ]} true zeros 0 [] [].


(** The empty namespace after one generated link was stored. *)
Definition after_create : World :=
  mkWorld {[ "aaaaaa" := "https://new.example/" ]} true zeros 6 [] [].

Definition post (b : JsonBody) : Request :=
  mkRequest "POST" "/api/create" "https://sho.rt" b.

End Sample.

(** ** The Worker *)

Section Worker.

(** Host parsing of the URL constructor: [parse_authority scheme rest]
    is the outcome for a special [scheme], or for a [rest] that starts
    with two slashes. *)
Variable parse_authority : string -> string -> option URLRecord.

(** The URL serializer: [URL_href u] is [new URL(u).href], the
    serialization of the URL that the constructor makes of [u]. *)
Variable URL_href : string -> string.

(** [new URL(input)]; [None] when the constructor throws. *)
Definition URL_new (input : string) : option URLRecord :=
  let input :=
    UrlSyntax.remove_tab_newline
      (UrlSyntax.strip_trailing (UrlSyntax.strip_leading input)) in
  match UrlSyntax.scheme_start_state input with
  | None => None
  | Some (scheme, rest) =>
      if UrlSyntax.is_special scheme || UrlSyntax.starts_with_two_slashes rest
      then parse_authority scheme rest
      else Some (mkURL scheme None)
  end.

(** [isValidUrl(url)], lines 92-99. *)
Definition isValidUrl (url : string) : bool :=
  match URL_new url with
  | Some _ => true
  | None => false
  end.

Definition chars : string :=
  "abcdefghijklmnopqrstuvwxyzABCDEFGHIJKLMNOPQRSTUVWXYZ0123456789".

(** [chars.charAt(Math.floor(r * chars.length))] for the Number [r]
    that [Math.random()] returned. *)
Definition pick (r : Q) : string :=
  Js.charAt chars
    (Js.Math_floor
       (Binary64.mul r (inject_Z (Z.of_nat (String.length chars))))).

(** The loop of [generateRandomId]: [n] iterations are left and
    [result] is the string built so far. *)
Fixpoint generateRandomId_loop (n : nat) (result : string) : M string :=
  match n with
  | O => ret result
  | S n' =>
      r <- Math_random ;;
      generateRandomId_loop n' (result ++ pick r)
  end.

(** [generateRandomId(length)], lines 102-109. *)
Definition generateRandomId (length : nat) : M string :=
  generateRandomId_loop length "".

Definition is_id_char (c : ascii) : bool :=
  is_lower c || is_upper c || is_digit c || Ascii.eqb c "_" || Ascii.eqb c "-".

(** [/^[a-zA-Z0-9_-]+$/.test(s)]: one or more characters of the class
    from the start of [s] to its end. *)
Definition custom_id_regex_test (s : string) : bool :=
  match s with
  | "" => false
  | _ => forallb is_id_char (list_ascii_of_string s)
  end.

(** Lines 76-84 of [handleCreate]: start the write and answer 201. *)
Definition store_and_reply (request : Request) (shortId longUrl : string)
  : M Response :=
  waitUntil_put shortId longUrl ;;;
  let shortUrl := origin request ++ "/" ++ shortId in
  ret (mkResponse (Json shortUrl longUrl) 201 (Some "application/json") None).

(** [handleCreate(request, env, ctx)], lines 49-89. *)
Definition handleCreate (request : Request) : M Response :=
  try_catch
    (parsed <- request_json request ;;
     let '(longUrl, customId) := parsed in
     if negb (isValidUrl longUrl) then
       ret (new_Response (Text "Invalid URL") 400)
     else
       let shortId := customId in
       if negb (Js.truthy shortId) then
         shortId <- generateRandomId 6 ;;
         store_and_reply request shortId longUrl
       else
         let shortId := Js.ToString shortId in
         if negb (custom_id_regex_test shortId) then
           ret (new_Response
                  (Text "Custom ID can only contain letters, numbers, hyphens, and underscores")
                  400)
         else
           existingUrl <- KV_get shortId ;;
           if Js.truthy existingUrl then
             ret (new_Response (Text "Custom ID already exists") 409)
           else
             store_and_reply request shortId longUrl)
    (fun error =>
       console_error "Error creating short link:" ;;;
       ret (new_Response (Text "Internal Server Error") 500)).

(** [Response.redirect(u, s)]: [u] is parsed as by [new URL(u)] and a
    failure is a TypeError, a status that is no redirect status is a
    RangeError, and the [Location] header is the serialized URL. *)
Definition Response_redirect (u : string) (s : Z) : M Response :=
  match URL_new u with
  | None => throw TypeError
  | Some _ =>
      if existsb (Z.eqb s) redirect_statuses
      then ret (redirect_to (URL_href u) s)
      else throw RangeError
  end.

(** [handleRedirect(shortId, env)], lines 31-46. *)
Definition handleRedirect (shortId : string) : M Response :=
  try_catch
    (longUrl <- KV_get shortId ;;
     if Js.truthy longUrl then
       Response_redirect (Js.ToString longUrl) 302
     else
       ret (new_Response (Text "Short link not found") 404))
    (fun error =>
       console_error "Error fetching from KV:" ;;;
       ret (new_Response (Text "Internal Server Error") 500)).

(** [serveStaticFile(request)], lines 112-183. *)
Definition serveStaticFile (request : Request) : M Response :=
  ret (mkResponse Html 200 (Some "text/html") None).

(** [fetch(request, env, ctx)], lines 3-28. *)
Definition fetch (request : Request) : M Response :=
  let path := Js.slice1 (pathname request) in
  if String.eqb path "" || String.eqb path "index.html" then
    serveStaticFile request
  else if String.eqb path "api/create" then
    if String.eqb (method request) "POST" then handleCreate request
    else ret (new_Response (Text "Method not allowed") 405)
  else if Js.truthy_str path then
    handleRedirect path
  else
    ret (new_Response (Text "Not Found") 404).

(** ** The service over time

    Between requests the started writes land in the namespace or are
    lost, in any order, and the surroundings (whether the namespace
    answers, what [Math.random] will return) change freely. *)
Inductive env_step (w : World) : World -> Prop :=
| step_fetch (request : Request) :
    env_step w (snd (fetch request w))
| step_put_lands (pre : list (string * string)) k v post :
    waitUntil_queue w = (pre ++ (k, v) :: post)%list ->
    env_step w (set_queue (pre ++ post)%list (set_kv (<[k := v]> (URL_KV w)) w))
| step_put_lost (pre : list (string * string)) k v post :
    waitUntil_queue w = (pre ++ (k, v) :: post)%list ->
    env_step w (set_queue (pre ++ post)%list w)
| step_surroundings reach ent n :
    env_step w (mkWorld (URL_KV w) reach ent n (waitUntil_queue w) (console w)).

(** The namespace starts empty and is written by this Worker only. *)
Inductive reachable : World -> Prop :=
| reachable_init w :
    URL_KV w = ∅ -> waitUntil_queue w = [] -> reachable w
| reachable_step w w' :
    reachable w -> env_step w w' -> reachable w'.

(** The data model's invariant: every stored value is a URL that
    passed [isValidUrl]. *)
Definition store_valid (kv : gmap string string) : Prop :=
  forall k v, kv !! k = Some v -> isValidUrl v = true.

Definition queue_valid (q : list (string * string)) : Prop :=
  Forall (fun kv => isValidUrl (snd kv) = true) q.

(** The characters the loop of [generateRandomId] appends for the
    draws number [start], [start + 1], ..., [start + n - 1]. *)
Fixpoint picks (ent : nat -> Q) (start n : nat) : string :=
  match n with
  | O => ""
  | S n' => pick (Binary64.of_real (ent start)) ++ picks ent (S start) n'
  end.

(** The answer of a successful create. *)
Definition created (request : Request) (shortId longUrl : string) : Response :=
  mkResponse (Json (origin request ++ "/" ++ shortId) longUrl) 201
             (Some "application/json") None.

(** ** Strings *)

Lemma append_cons (c : ascii) (s t : string) :
  String c s ++ t = String c (s ++ t).
Proof. reflexivity. Qed.

Lemma append_empty_r (s : string) : s ++ "" = s.
Proof.
  induction s as [|c s IH]; [reflexivity |].
  now rewrite append_cons, IH.
Qed.

Lemma append_assoc (s1 s2 s3 : string) : (s1 ++ s2) ++ s3 = s1 ++ (s2 ++ s3).
Proof.
  induction s1 as [|c s1 IH]; [reflexivity |].
  now rewrite !append_cons, IH.
Qed.

Lemma length_append (s1 s2 : string) :
  String.length (s1 ++ s2) = (String.length s1 + String.length s2)%nat.
Proof.
  induction s1 as [|c s1 IH]; [reflexivity |].
  rewrite append_cons. simpl. now rewrite IH.
Qed.

Lemma get_lookup (s : string) (n : nat) :
  String.get n s = list_ascii_of_string s !! n.
Proof.
  revert n; induction s as [|c s IH]; intros [|n]; simpl; try reflexivity.
  apply IH.
Qed.

Lemma eqb_empty_false (s : string) : s <> "" -> String.eqb s "" = false.
Proof. intros H. now apply String.eqb_neq. Qed.

(** ** The URL constructor rejects the empty string *)

Lemma isValidUrl_nonempty (s : string) : isValidUrl s = true -> s <> "".
Proof. intros H ->. discriminate H. Qed.

Lemma truthy_valid (s : string) : isValidUrl s = true -> Js.truthy (Some s) = true.
Proof.
  intros H. apply isValidUrl_nonempty in H. simpl.
  now rewrite (eqb_empty_false _ H).
Qed.

Lemma isValidUrl_parses (s : string) :
  isValidUrl s = true <-> is_Some (URL_new s).
Proof.
  unfold isValidUrl. destruct (URL_new s) as [u|]; split; intros H.
  - now exists u.
  - reflexivity.
  - discriminate.
  - destruct H as [u Hu]. discriminate.
Qed.

(** ** The random identifier *)

(** The alphabet: 62 distinct alphanumeric characters. *)


Lemma chars_alnum (n : nat) :
  (n < 62)%nat ->
  exists c, String.get n chars = Some c /\ is_alnum c = true.
Proof.
  intros Hn.
  assert (H : forallb (fun n => match String.get n chars with
                                | Some c => is_alnum c
                                | None => false
                                end) (seq 0 62) = true) by (vm_compute; reflexivity).
  rewrite forallb_forall in H.
  specialize (H n). 
  destruct (String.get n chars) as [c|].
  - exists c. split; [reflexivity|]. apply H. apply in_seq. lia.
  - discriminate H. apply in_seq. lia.
Qed.

Lemma charAt_chars (k : Z) :
  (0 <= k < 62)%Z ->
  exists c, Js.charAt chars k = String c "" /\ is_alnum c = true
            /\ list_ascii_of_string chars !! Z.to_nat k = Some c.
Proof.
  intros Hk. unfold Js.charAt.
  destruct (Z.ltb_spec k 0) as [?|_]; [lia|].
  destruct (chars_alnum (Z.to_nat k)) as (c & Hc & Hal); [lia|].
  rewrite Hc. exists c. split; [reflexivity | split; [exact Hal |]].
  now rewrite <- get_lookup.
Qed.


(** ** Binary64 rounding on the numbers the code multiplies *)

Import Binary64.
Local Open Scope Q_scope.

Lemma two_pow_neg (e : Z) :
  (e < 0)%Z -> two_pow e = 1 # Z.to_pos (2 ^ (- e)).
Proof.
  intros H. unfold two_pow. destruct (Z.leb_spec 0 e); [lia | reflexivity].
Qed.

Lemma floor_scaled_bounds (x : Q) :
  0 <= x ->
  let M := Qfloor (Qabs x * two_pow 1074) in
  (0 <= M)%Z /\ inject_Z M <= x * two_pow 1074 /\ x * two_pow 1074 < inject_Z (M + 1).
Proof.
  intros Hx M.
  assert (E : Qabs x * two_pow 1074 == x * two_pow 1074)
    by (now rewrite (Qabs_pos x Hx)).
  unfold M. rewrite (Qfloor_comp _ _ E).
  split; [| split].
  - rewrite <- (Qfloor_Z 0). apply Qfloor_resp_le.
    apply Qmult_le_0_compat; [exact Hx | discriminate].
  - apply Qfloor_le.
  - apply Qlt_floor.
Qed.

(** Below 2^n the exponent is below n. *)
Lemma exponent_lt (x : Q) (n : Z) :
  0 <= x -> (-1021 <= n)%Z ->
  x * two_pow 1074 < inject_Z (2 ^ (n + 1074)) ->
  (exponent x <= n - 1)%Z.
Proof.
  intros Hx Hn Hlt.
  destruct (floor_scaled_bounds x Hx) as (HM0 & HMle & _).
  unfold exponent.
  set (M := Qfloor (Qabs x * two_pow 1074)) in *.
  assert (HM : (M < 2 ^ (n + 1074))%Z).
  { rewrite Zlt_Qlt. eapply Qle_lt_trans; eassumption. }
  destruct (Z.eq_dec M 0%Z) as [-> | Hne].
  - simpl. lia.
  - assert (Z.log2 M < n + 1074)%Z by (apply Z.log2_lt_pow2; lia).
    lia.
Qed.

(** An exponent below -1 belongs to a number below 1/2. *)
Lemma exponent_small (x : Q) :
  0 <= x -> (exponent x <= -2)%Z -> x < 1 # 2.
Proof.
  intros Hx He.
  destruct (floor_scaled_bounds x Hx) as (HM0 & _ & HMlt).
  unfold exponent in He.
  set (M := Qfloor (Qabs x * two_pow 1074)) in *.
  assert (HM : (M + 1 <= 2 ^ 1073)%Z).
  { destruct (Z.eq_dec M 0%Z) as [-> | Hne]; [simpl; lia |].
    assert (M < 2 ^ (Z.log2 M + 1))%Z.
    { pose proof (Z.log2_spec M). replace (Z.log2 M + 1)%Z with (Z.succ (Z.log2 M)) by lia.
      apply H. lia. }
    assert (2 ^ (Z.log2 M + 1) <= 2 ^ 1073)%Z
      by (apply Z.pow_le_mono_r; lia).
    lia. }
  assert (Hq : x * two_pow 1074 < inject_Z (2 ^ 1073)).
  { eapply Qlt_le_trans; [exact HMlt |]. now rewrite <- Zle_Qle. }
  assert (E : inject_Z (2 ^ 1073) == (1 # 2) * two_pow 1074).
  { unfold two_pow. simpl (0 <=? 1074)%Z. cbv iota.
    unfold Qeq, Qmult, inject_Z. simpl Qnum. simpl Qden.
    change (2 ^ 1074)%Z with (2 * 2 ^ 1073)%Z. lia. }
  rewrite E in Hq.
  apply Qmult_lt_r in Hq; [exact Hq | reflexivity].
Qed.

Lemma ulp_form (x : Q) (n : Z) :
  (exponent x <= n)%Z -> (n < 52)%Z ->
  exists P : positive,
    ulp x = 1 # P /\ (2 ^ (52 - n) <= Zpos P)%Z
    /\ ((exponent x = n)%Z -> Zpos P = (2 ^ (52 - n))%Z).
Proof.
  intros He Hn. unfold ulp. rewrite two_pow_neg by lia.
  exists (Z.to_pos (2 ^ (- (exponent x - 52)))).
  assert (Hp : (0 < 2 ^ (- (exponent x - 52)))%Z) by (apply Z.pow_pos_nonneg; lia).
  split; [reflexivity |]. rewrite Z2Pos.id by exact Hp. split.
  - apply Z.pow_le_mono_r; lia.
  - intros ->. f_equal. lia.
Qed.

Lemma nearest_even_le (y : Q) : inject_Z (nearest_even y) <= y + (1 # 2).
Proof.
  unfold nearest_even.
  pose proof (Qfloor_le y) as Hf.
  destruct (Qcompare (y - inject_Z (Qfloor y)) (1 # 2)) eqn:Hc.
  - apply Qeq_alt in Hc.
    destruct (Z.even (Qfloor y)); [lra |].
    rewrite inject_Z_plus. change (inject_Z 1) with 1. lra.
  - lra.
  - apply Qgt_alt in Hc. rewrite inject_Z_plus. change (inject_Z 1) with 1. lra.
Qed.

Lemma nearest_even_ge (y : Q) (n : Z) :
  inject_Z n <= y -> (n <= nearest_even y)%Z.
Proof.
  intros Hn.
  assert (Hf : (n <= Qfloor y)%Z).
  { rewrite <- (Qfloor_Z n). now apply Qfloor_resp_le. }
  unfold nearest_even.
  destruct (Qcompare (y - inject_Z (Qfloor y)) (1 # 2));
    [destruct (Z.even (Qfloor y)) | |]; lia.
Qed.

Lemma toward_zero_floor (y : Q) : 0 <= y -> toward_zero y = Qfloor y.
Proof.
  intros Hy. unfold toward_zero.
  apply Qle_bool_iff in Hy. now rewrite Hy.
Qed.

Lemma scale_back (y : Q) (P : positive) : y * (Zpos P # 1) * (1 # P) == y.
Proof.
  rewrite <- Qmult_assoc.
  assert (E : (Zpos P # 1) * (1 # P) == 1).
  { unfold Qeq, Qmult. simpl. lia. }
  rewrite E. apply Qmult_1_r.
Qed.

(** Rounding to nearest moves a number below 64 up by at most 2^-48. *)
Lemma mul_round_le (x : Q) :
  0 <= x -> x < 64 ->
  round nearest_even x <= x + (1 # 2 ^ 48).
Proof.
  intros H0 H64.
  assert (He : (exponent x <= 5)%Z).
  { apply (exponent_lt x 6 H0); [lia |].
    change (inject_Z (2 ^ (6 + 1074))) with (64 * two_pow 1074).
    apply Qmult_lt_r; [reflexivity | exact H64]. }
  destruct (ulp_form x 5 He) as (P & EP & HP & _); [lia |].
  unfold round. rewrite EP.
  change (x / (1 # P)) with (x * (Zpos P # 1)).
  pose proof (nearest_even_le (x * (Zpos P # 1))) as Hne.
  assert (Hs : inject_Z (nearest_even (x * (Zpos P # 1))) * (1 # P)
               <= (x * (Zpos P # 1) + (1 # 2)) * (1 # P)).
  { apply Qmult_le_compat_r; [exact Hne | discriminate]. }
  eapply Qle_trans; [exact Hs |].
  rewrite Qmult_plus_distr_l, scale_back.
  apply Qplus_le_r.
  unfold Qle, Qmult. simpl Qnum. simpl Qden.
  change (2 ^ (52 - 5))%Z with (2 ^ 47)%Z in HP.
  change (Zpos (2 ^ 48)) with (2 * 2 ^ 47)%Z.
  rewrite ?Pos2Z.inj_mul, ?(Pos2Z.inj_xO P). lia.
Qed.

(** Rounding to nearest never crosses an integer downwards. *)
Lemma mul_round_ge (x : Q) (k : Z) :
  0 <= x -> x < 64 -> inject_Z k <= x ->
  inject_Z k <= round nearest_even x.
Proof.
  intros H0 H64 Hk.
  assert (He : (exponent x <= 5)%Z).
  { apply (exponent_lt x 6 H0); [lia |].
    change (inject_Z (2 ^ (6 + 1074))) with (64 * two_pow 1074).
    apply Qmult_lt_r; [reflexivity | exact H64]. }
  destruct (ulp_form x 5 He) as (P & EP & HP & _); [lia |].
  unfold round. rewrite EP.
  change (x / (1 # P)) with (x * (Zpos P # 1)).
  assert (Hy : inject_Z (k * Zpos P) <= x * (Zpos P # 1)).
  { rewrite inject_Z_mult. change (inject_Z (Zpos P)) with (Zpos P # 1).
    apply Qmult_le_compat_r; [exact Hk | discriminate]. }
  apply nearest_even_ge in Hy. rewrite Zle_Qle in Hy.
  assert (Hs : inject_Z (k * Zpos P) * (1 # P)
               <= inject_Z (nearest_even (x * (Zpos P # 1))) * (1 # P)).
  { apply Qmult_le_compat_r; [exact Hy | discriminate]. }
  eapply Qle_trans; [| exact Hs].
  rewrite inject_Z_mult. change (inject_Z (Zpos P)) with (Zpos P # 1).
  rewrite scale_back. apply Qle_refl.
Qed.

(** What [of_real] makes of a real in [0, 1): a number of [0, 1 - 2^-53]
    that is not above it. *)
Lemma of_real_unit (r : Q) :
  0 <= r -> r < 1 ->
  0 <= of_real r /\ of_real r <= r /\ of_real r <= 1 - (1 # 2 ^ 53).
Proof.
  intros H0 H1.
  assert (He : (exponent r <= -1)%Z).
  { apply (exponent_lt r 0 H0); [lia |].
    change (inject_Z (2 ^ (0 + 1074))) with (1 * two_pow 1074).
    apply Qmult_lt_r; [reflexivity | exact H1]. }
  destruct (ulp_form r (-1) He) as (P & EP & HP & HPeq); [lia |].
  unfold of_real, round. rewrite EP.
  change (r / (1 # P)) with (r * (Zpos P # 1)).
  assert (Hy0 : 0 <= r * (Zpos P # 1))
    by (apply Qmult_le_0_compat; [exact H0 | discriminate]).
  rewrite (toward_zero_floor _ Hy0).
  set (y := r * (Zpos P # 1)) in *.
  assert (Hf0 : (0 <= Qfloor y)%Z).
  { rewrite <- (Qfloor_Z 0). now apply Qfloor_resp_le. }
  assert (Hle : inject_Z (Qfloor y) * (1 # P) <= r).
  { rewrite <- (scale_back r P). fold y.
    apply Qmult_le_compat_r; [apply Qfloor_le | discriminate]. }
  split; [| split; [exact Hle |]].
  - apply Qmult_le_0_compat; [| discriminate].
    now rewrite <- (Zle_Qle 0).
  - destruct (Z.eq_dec (exponent r) (-1)%Z) as [E1 | Hne].
    + specialize (HPeq E1). change (2 ^ (52 - -1))%Z with (2 ^ 53)%Z in HPeq.
      assert (Hfl : (Qfloor y < Zpos P)%Z).
      { rewrite Zlt_Qlt. eapply Qle_lt_trans; [apply Qfloor_le |].
        unfold y. change (inject_Z (Zpos P)) with (1 * (Zpos P # 1)).
        apply Qmult_lt_r; [reflexivity | exact H1]. }
      assert (EPp : P = (2 ^ 53)%positive) by (apply Pos2Z.inj; exact HPeq).
      assert (Hfl' : inject_Z (Qfloor y) <= inject_Z (Zpos P - 1))
        by (rewrite <- Zle_Qle; lia).
      eapply Qle_trans;
        [apply Qmult_le_compat_r; [exact Hfl' | discriminate] |].
      rewrite EPp. unfold Qle. simpl. lia.
    + assert (Hs : r < 1 # 2) by (apply exponent_small; [exact H0 | lia]).
      assert ((1 # 2) <= 1 - (1 # 2 ^ 53)) by (unfold Qle; simpl; lia).
      lra.
Qed.

Local Close Scope Q_scope.

(** The model on products whose binary64 value is known: 0.1 * 3 is
    0.30000000000000004, the largest Number below 1 times 62 stays
    below 62, and 1/3 is truncated to 0.333...33 (53 bits). *)
Lemma binary64_examples :
  (Binary64.mul (3602879701896397 # 2 ^ 55) 3 == 5404319552844596 # 2 ^ 54)%Q
  /\ (Binary64.mul (9007199254740991 # 2 ^ 53) 62 == 62 - (1 # 2 ^ 47))%Q
  /\ (Binary64.mul (1162219258676257 # 2 ^ 53) 62 == 8)%Q
  /\ (Binary64.of_real (1 # 3) == 6004799503160661 # 2 ^ 54)%Q
  /\ (Binary64.of_real (9007199254740991 # 2 ^ 53)
      == 9007199254740991 # 2 ^ 53)%Q.
Proof. repeat split; vm_compute; reflexivity. Qed.

(** ** The symbol a draw picks *)

Lemma pick_floor (r : Q) :
  pick r = Js.charAt chars (Js.Math_floor (Binary64.mul r (inject_Z 62))).
Proof. reflexivity. Qed.



Lemma rounding_margins :
  (0 < 1 # 2 ^ 53)%Q /\ (0 < 1 # 2 ^ 48)%Q
  /\ ((1 # 2 ^ 48) < 62 * (1 # 2 ^ 53))%Q
  /\ ((1 # 2 ^ 48) * (1 # 62) <= 1 # 2 ^ 53)%Q
  /\ (62 * (1 # 2 ^ 53) < 1)%Q.
Proof. repeat split; unfold Qle, Qlt; simpl; lia. Qed.

Ltac with_margins :=
  destruct rounding_margins as (M53 & M48 & Mlt & Mle & Mone);
  set (eps53 := (1 # 2 ^ 53)%Q) in *;
  set (eps48 := (1 # 2 ^ 48)%Q) in *;
  clearbody eps53 eps48.

(** The index of a binary64 draw of [0, 1) is in range. *)
Lemma index_range (r : Q) :
  (0 <= r)%Q -> (r <= 1 - (1 # 2 ^ 53))%Q ->
  (0 <= Js.Math_floor (Binary64.mul r (inject_Z 62)) < 62)%Z.
Proof.
  intros H0 H1. unfold Js.Math_floor, Binary64.mul.
  change (inject_Z 62) with 62%Q.
  assert (Hx0 : (0 <= r * 62)%Q) by lra.
  assert (Hx64 : (r * 62 < 64)%Q) by (with_margins; lra).
  pose proof (mul_round_le _ Hx0 Hx64) as Hup.
  pose proof (mul_round_ge _ 0 Hx0 Hx64 Hx0) as Hlo.
  with_margins.
  split.
  - rewrite <- (Qfloor_Z 0). now apply Qfloor_resp_le.
  - rewrite Zlt_Qlt. eapply Qle_lt_trans; [apply Qfloor_le |].
    change (inject_Z 62) with 62%Q. lra.
Qed.





Lemma pick_symbol (r : Q) :
  (0 <= r)%Q -> (r < 1)%Q ->
  exists c, pick (Binary64.of_real r) = String c "" /\ is_alnum c = true.
Proof.
  intros H0 H1. rewrite pick_floor.
  destruct (of_real_unit r H0 H1) as (Hd0 & _ & Hd1).
  destruct (charAt_chars _ (index_range _ Hd0 Hd1)) as (c & Ec & Hal & _).
  now exists c.
Qed.

Lemma charAt_0 (c : ascii) (s : string) : Js.charAt (String c s) 0 = String c "".
Proof. reflexivity. Qed.

Lemma charAt_succ (c : ascii) (s : string) (i : nat) :
  Js.charAt (String c s) (Z.of_nat (S i)) = Js.charAt s (Z.of_nat i).
Proof.
  unfold Js.charAt.
  destruct (Z.ltb_spec (Z.of_nat (S i)) 0); [lia |].
  destruct (Z.ltb_spec (Z.of_nat i) 0); [lia |].
  rewrite !Nat2Z.id. reflexivity.
Qed.

Lemma picks_spec (ent : nat -> Q) (n : nat) :
  forall start : nat,
    (forall i, (0 <= ent i)%Q /\ (ent i < 1)%Q) ->
    String.length (picks ent start n) = n
    /\ forall i, (i < n)%nat ->
         Js.charAt (picks ent start n) (Z.of_nat i)
         = pick (Binary64.of_real (ent (start + i)%nat)).
Proof.
  induction n as [|n IH]; intros start Hent; simpl.
  - split; [reflexivity | intros i Hi; lia].
  - destruct (pick_symbol (ent start)) as (c & Ec & _); [apply Hent | apply Hent |].
    destruct (IH (S start) Hent) as [Hlen Hget].
    rewrite Ec, append_cons. change ("" ++ picks ent (S start) n) with (picks ent (S start) n).
    split; [simpl; now rewrite Hlen |].
    intros [|i] Hi.
    + rewrite Nat.add_0_r, Ec. apply charAt_0.
    + rewrite charAt_succ, Hget by lia.
      now replace (S start + i)%nat with (start + S i)%nat by lia.
Qed.

Lemma world_eta (w : World) :
  mkWorld (URL_KV w) (kv_reachable w) (entropy w) (draws w)
          (waitUntil_queue w) (console w) = w.
Proof. now destruct w. Qed.

Lemma generateRandomId_loop_run (n : nat) :
  forall (result : string) (w : World),
    generateRandomId_loop n result w
    = (Ret (result ++ picks (entropy w) (draws w) n),
       set_draws (draws w + n) w).
Proof.
  induction n as [|n IH]; intros result w; simpl.
  - unfold ret, set_draws. rewrite append_empty_r, Nat.add_0_r.
    now rewrite world_eta.
  - unfold bind, Math_random. rewrite IH. simpl.
    rewrite append_assoc. unfold set_draws; simpl.
    now rewrite Nat.add_succ_r.
Qed.

Lemma generateRandomId_run (n : nat) (w : World) :
  generateRandomId n w
  = (Ret (picks (entropy w) (draws w) n), set_draws (draws w + n) w).
Proof. unfold generateRandomId. now rewrite generateRandomId_loop_run. Qed.

(** ** What the handlers do to the world *)

Ltac js_unfold :=
  unfold handleRedirect, handleCreate, store_and_reply, serveStaticFile,
    request_json, KV_get, waitUntil_put, console_error,
    try_catch, bind, ret, throw.

Lemma Response_redirect_302 (u : string) (w : World) :
  Response_redirect u 302 w
  = if isValidUrl u then (Ret (redirect_to (URL_href u) 302), w)
    else (Throw TypeError, w).
Proof.
  unfold Response_redirect, isValidUrl. now destruct (URL_new u).
Qed.

(** [handleRedirect] path by path. *)
Lemma handleRedirect_run (shortId : string) (w : World) :
  handleRedirect shortId w
  = if kv_reachable w then
      if Js.truthy (URL_KV w !! shortId) then
        if isValidUrl (Js.ToString (URL_KV w !! shortId)) then
          (Ret (redirect_to (URL_href (Js.ToString (URL_KV w !! shortId))) 302), w)
        else
          (Ret (new_Response (Text "Internal Server Error") 500),
           set_console (console w ++ ["Error fetching from KV:"]) w)
      else
        (Ret (new_Response (Text "Short link not found") 404), w)
    else
      (Ret (new_Response (Text "Internal Server Error") 500),
       set_console (console w ++ ["Error fetching from KV:"]) w).
Proof.
  js_unfold. destruct (kv_reachable w); [| reflexivity].
  destruct (Js.truthy (URL_KV w !! shortId)); [| reflexivity].
  rewrite Response_redirect_302.
  now destruct (isValidUrl (Js.ToString (URL_KV w !! shortId))).
Qed.

Lemma handleRedirect_effect (shortId : string) (w : World) :
  exists resp w',
    handleRedirect shortId w = (Ret resp, w')
    /\ URL_KV w' = URL_KV w
    /\ kv_reachable w' = kv_reachable w
    /\ waitUntil_queue w' = waitUntil_queue w
    /\ status resp <> 201%Z.
Proof.
  rewrite handleRedirect_run. destruct (kv_reachable w) eqn:Hr.
  - destruct (Js.truthy (URL_KV w !! shortId));
      [destruct (isValidUrl (Js.ToString (URL_KV w !! shortId))) |];
      eexists; eexists; (split; [reflexivity |]); simpl; repeat split;
      try assumption; discriminate.
  - eexists; eexists; (split; [reflexivity |]); simpl; repeat split;
      try assumption; discriminate.
Qed.

(** A create either answers 201 after starting exactly one write, of
    the request's [longUrl] and only when that passed [isValidUrl], or
    answers something else and starts no write; it never throws and
    never touches the namespace itself. *)
Lemma handleCreate_effect (request : Request) (w : World) :
  exists resp w',
    handleCreate request w = (Ret resp, w')
    /\ URL_KV w' = URL_KV w
    /\ ((status resp <> 201%Z /\ waitUntil_queue w' = waitUntil_queue w)
        \/ (exists shortId longUrl customId,
               json_body request = BodyObject longUrl customId
               /\ isValidUrl longUrl = true
               /\ resp = created request shortId longUrl
               /\ waitUntil_queue w'
                  = (waitUntil_queue w ++ [(shortId, longUrl)])%list)).
Proof.
  js_unfold.
  destruct (json_body request) as [| |longUrl customId] eqn:Hb; cbv beta iota.
  - eexists; eexists; (split; [reflexivity |]); simpl.
    split; [reflexivity | left; split; [discriminate | reflexivity]].
  - eexists; eexists; (split; [reflexivity |]); simpl.
    split; [reflexivity | left; split; [discriminate | reflexivity]].
  - destruct (isValidUrl longUrl) eqn:Hv; cbv beta iota delta [negb].
    2:{ eexists; eexists; (split; [reflexivity |]); simpl.
        split; [reflexivity | left; split; [discriminate | reflexivity]]. }
    destruct (Js.truthy customId) eqn:Ht; cbv beta iota.
    2:{ rewrite generateRandomId_run.
        eexists; eexists; (split; [reflexivity |]); simpl.
        split; [reflexivity | right].
        exists (picks (entropy w) (draws w) 6), longUrl, customId.
        repeat split; assumption || reflexivity. }
    destruct (custom_id_regex_test (Js.ToString customId)) eqn:Hre;
      cbv beta iota.
    2:{ eexists; eexists; (split; [reflexivity |]); simpl.
        split; [reflexivity | left; split; [discriminate | reflexivity]]. }
    destruct (kv_reachable w) eqn:Hr.
    2:{ eexists; eexists; (split; [reflexivity |]); simpl.
        split; [reflexivity | left; split; [discriminate | reflexivity]]. }
    destruct (Js.truthy (URL_KV w !! Js.ToString customId)) eqn:He.
    + eexists; eexists; (split; [reflexivity |]); simpl.
      split; [reflexivity | left; split; [discriminate | reflexivity]].
    + eexists; eexists; (split; [reflexivity |]); simpl.
      split; [reflexivity | right].
      exists (Js.ToString customId), longUrl, customId.
      repeat split; assumption || reflexivity.
Qed.

Lemma fetch_effect (request : Request) (w : World) :
  let w' := snd (fetch request w) in
  URL_KV w' = URL_KV w
  /\ (waitUntil_queue w' = waitUntil_queue w
      \/ exists shortId longUrl,
           isValidUrl longUrl = true
           /\ waitUntil_queue w'
              = (waitUntil_queue w ++ [(shortId, longUrl)])%list).
Proof.
  unfold fetch.
  destruct (_ || _); [simpl; auto |].
  destruct (String.eqb _ "api/create").
  - destruct (String.eqb _ "POST"); [| simpl; auto].
    destruct (handleCreate_effect request w)
      as (resp & w' & E & Hkv & [[_ Hq] | (id & L & cid & _ & Hv & _ & Hq)]);
      rewrite E; simpl; split; eauto.
  - destruct (Js.truthy_str _); [| simpl; auto].
    destruct (handleRedirect_effect (Js.slice1 (pathname request)) w)
      as (resp & w' & E & Hkv & _ & Hq & _).
    rewrite E; simpl; auto.
Qed.

Lemma reachable_valid (w : World) :
  reachable w -> store_valid (URL_KV w) /\ queue_valid (waitUntil_queue w).
Proof.
  induction 1 as [w Hkv Hq | w w' _ [IHs IHq] Hstep].
  - rewrite Hkv, Hq. split; [| constructor].
    intros k v Hk. rewrite lookup_empty in Hk. discriminate.
  - destruct Hstep as [request | pre k v post Hq | pre k v post Hq | reach ent n].
    + destruct (fetch_effect request w) as [Hkv [Hq | (id & L & Hv & Hq)]];
        rewrite Hkv, Hq; split; try assumption.
      apply Forall_app. split; [assumption |]. constructor; [exact Hv | constructor].
    + unfold queue_valid in *. rewrite Hq in IHq.
      apply Forall_app in IHq. destruct IHq as [Hpre Hpost].
      apply Forall_cons in Hpost. destruct Hpost as [Hv Hpost]. simpl in *.
      split; [| apply Forall_app; now split].
      intros k' v' Hk'. destruct (decide (k = k')) as [<- | Hne].
      * rewrite lookup_insert_eq in Hk'. now injection Hk' as <-.
      * rewrite lookup_insert_ne in Hk' by exact Hne. now apply (IHs k').
    + unfold queue_valid in *. rewrite Hq in IHq.
      apply Forall_app in IHq. destruct IHq as [Hpre Hpost].
      apply Forall_cons in Hpost. destruct Hpost as [_ Hpost]. simpl.
      split; [assumption | apply Forall_app; now split].
    + simpl. now split.
Qed.

(** The path of [handleCreate] that generates the id. *)
Lemma handleCreate_generated
    (w : World) (request : Request) (longUrl : string) (customId : Js.value) :
  json_body request = BodyObject longUrl customId ->
  isValidUrl longUrl = true ->
  Js.truthy customId = false ->
  handleCreate request w
  = (Ret (created request (picks (entropy w) (draws w) 6) longUrl),
     set_queue
       (waitUntil_queue w ++ [(picks (entropy w) (draws w) 6, longUrl)])%list
       (set_draws (draws w + 6) w)).
Proof.
  intros Hb Hv Ht.
  js_unfold. rewrite Hb. cbv beta iota. rewrite Hv, Ht.
  cbv beta iota delta [negb]. rewrite generateRandomId_run. reflexivity.
Qed.

(** The path of [handleRedirect] that finds a valid URL. *)
Lemma handleRedirect_found (w : World) (shortId longUrl : string) :
  kv_reachable w = true ->
  URL_KV w !! shortId = Some longUrl ->
  isValidUrl longUrl = true ->
  handleRedirect shortId w = (Ret (redirect_to (URL_href longUrl) 302), w).
Proof.
  intros Hr Hk Hv. rewrite handleRedirect_run, Hr, Hk.
  rewrite (truthy_valid longUrl Hv). simpl. now rewrite Hv.
Qed.

(** ** The claims *)

(** C1 (as amended): a POST to /api/create whose body is not JSON is
    answered with status 500 and the body "Internal Server Error": the
    rejection of [request.json()] is caught by the handler's only
    [catch], which logs a line and writes nothing. *)
Theorem create_malformed_json_500 (w : World) (request : Request) :
  method request = "POST" ->
  pathname request = "/api/create" ->
  json_body request = BodySyntaxError ->
  fetch request w
  = (Ret (new_Response (Text "Internal Server Error") 500),
     set_console (console w ++ ["Error creating short link:"]) w).
Proof.
  intros Hm Hp Hb. unfold fetch. rewrite Hm, Hp. simpl.
  js_unfold. rewrite Hb. reflexivity.
Qed.

(** C2 (as amended): a create with a caller-supplied (non-empty)
    customId that is already a key of the namespace, whose values are
    valid URLs, fails: the answer is not 201, no put is started and
    the namespace is unchanged.  A create without a customId starts
    the put of the generated id whatever the namespace holds: there is
    no existence check on that path. *)
Theorem create_checks_custom_ids_only
    (w : World) (request : Request) (longUrl : string) :
  (forall shortId,
      json_body request = BodyObject longUrl (Some shortId) ->
      shortId <> "" ->
      store_valid (URL_KV w) ->
      is_Some (URL_KV w !! shortId) ->
      exists resp w',
        handleCreate request w = (Ret resp, w')
        /\ status resp <> 201%Z
        /\ waitUntil_queue w' = waitUntil_queue w
        /\ URL_KV w' = URL_KV w)
  /\ (forall customId,
        json_body request = BodyObject longUrl customId ->
        isValidUrl longUrl = true ->
        Js.truthy customId = false ->
        let shortId := picks (entropy w) (draws w) 6 in
        handleCreate request w
        = (Ret (created request shortId longUrl),
           set_queue (waitUntil_queue w ++ [(shortId, longUrl)])%list
                     (set_draws (draws w + 6) w))).
Proof.
  split.
  - intros shortId Hb Hne Hst [v Hv].
    assert (Ht : Js.truthy (Some shortId) = true)
      by (simpl; now rewrite (eqb_empty_false _ Hne)).
    assert (He : Js.truthy (URL_KV w !! shortId) = true)
      by (rewrite Hv; apply truthy_valid; now apply (Hst shortId)).
    js_unfold. rewrite Hb. cbv beta iota.
    destruct (isValidUrl longUrl); cbv beta iota delta [negb].
    2:{ eexists; eexists; (split; [reflexivity |]); simpl.
        repeat split; discriminate. }
    rewrite Ht. cbv beta iota.
    change (Js.ToString (Some shortId)) with shortId.
    destruct (custom_id_regex_test shortId); cbv beta iota.
    2:{ eexists; eexists; (split; [reflexivity |]); simpl.
        repeat split; discriminate. }
    destruct (kv_reachable w).
    + rewrite He. eexists; eexists; (split; [reflexivity |]); simpl.
      repeat split; discriminate.
    + eexists; eexists; (split; [reflexivity |]); simpl.
      repeat split; discriminate.
  - intros customId Hb Hv Ht shortId.
    now apply handleCreate_generated with (customId := customId).
Qed.

(** C3 (as amended): [isValidUrl s] is true exactly when the URL
    constructor accepts [s]; that requires a scheme (letters, digits,
    [+], [-], [.] after a first letter, up to a colon) and does not
    require a host: after a non-special scheme, a remainder that does
    not start with two slashes is accepted with a null host.  On every
    [longUrl] the constructor rejects, the create answers 400 "Invalid
    URL" and changes nothing. *)
Theorem isValidUrl_is_the_constructor (s : string) :
  let input :=
    UrlSyntax.remove_tab_newline
      (UrlSyntax.strip_trailing (UrlSyntax.strip_leading s)) in
  (isValidUrl s = true <-> exists u, URL_new s = Some u)
  /\ (isValidUrl s = true ->
      exists scheme rest, UrlSyntax.scheme_start_state input = Some (scheme, rest))
  /\ (forall scheme rest,
        UrlSyntax.scheme_start_state input = Some (scheme, rest) ->
        UrlSyntax.is_special scheme = false ->
        UrlSyntax.starts_with_two_slashes rest = false ->
        URL_new s = Some (mkURL scheme None) /\ isValidUrl s = true)
  /\ (forall (w : World) (request : Request) (customId : Js.value),
        json_body request = BodyObject s customId ->
        URL_new s = None ->
        handleCreate request w
        = (Ret (new_Response (Text "Invalid URL") 400), w)).
Proof.
  intros input. split; [apply isValidUrl_parses |]. split; [| split].
  - unfold isValidUrl, URL_new. fold input.
    destruct (UrlSyntax.scheme_start_state input) as [[scheme rest]|];
      [intros _; now exists scheme, rest | discriminate].
  - intros scheme rest Hs Hsp Hsl.
    unfold isValidUrl, URL_new. fold input. now rewrite Hs, Hsp, Hsl.
  - intros w request customId Hb Hn.
    js_unfold. rewrite Hb. cbv beta iota. unfold isValidUrl. rewrite Hn.
    reflexivity.
Qed.

(** C4 (as amended): when the body parses, [longUrl] is valid and the
    supplied customId is a non-empty string that does not match
    [^[a-zA-Z0-9_-]+$], the create answers 400 with the message
    "Custom ID can only contain letters, numbers, hyphens, and
    underscores" and changes nothing.  An empty customId is treated as
    an absent one: the id is generated. *)
Theorem create_rejects_bad_custom_id
    (w : World) (request : Request) (longUrl : string) :
  isValidUrl longUrl = true ->
  (forall customId,
      json_body request = BodyObject longUrl (Some customId) ->
      customId <> "" ->
      custom_id_regex_test customId = false ->
      handleCreate request w
      = (Ret (new_Response
                (Text "Custom ID can only contain letters, numbers, hyphens, and underscores")
                400),
         w))
  /\ (json_body request = BodyObject longUrl (Some "") ->
      let shortId := picks (entropy w) (draws w) 6 in
      handleCreate request w
      = (Ret (created request shortId longUrl),
         set_queue (waitUntil_queue w ++ [(shortId, longUrl)])%list
                   (set_draws (draws w + 6) w))).
Proof.
  intros Hv. split.
  - intros customId Hb Hne Hre.
    js_unfold. rewrite Hb. cbv beta iota. rewrite Hv.
    cbv beta iota delta [negb].
    replace (Js.truthy (Some customId)) with true
      by (simpl; now rewrite (eqb_empty_false _ Hne)).
    cbv beta iota. change (Js.ToString (Some customId)) with customId.
    rewrite Hre. reflexivity.
  - intros Hb.
    now apply handleCreate_generated with (customId := Some "").
Qed.


(** C6 (as amended): when a create answers 201, it answers with the
    [longUrl] of the request and has started the write of exactly that
    string under the returned id; once that write has landed, the
    namespace holds that string unchanged, and a resolve of the id
    (whose read is answered) redirects to the serialization of that
    URL, which is the stored string itself exactly when the serializer
    leaves it as it is. *)
Theorem create_resolve_roundtrip
    (w w1 : World) (request : Request) (resp : Response) :
  handleCreate request w = (Ret resp, w1) ->
  status resp = 201%Z ->
  exists shortId longUrl customId,
    json_body request = BodyObject longUrl customId
    /\ resp = created request shortId longUrl
    /\ waitUntil_queue w1 = (waitUntil_queue w ++ [(shortId, longUrl)])%list
    /\ forall pre post,
         waitUntil_queue w1 = (pre ++ (shortId, longUrl) :: post)%list ->
         kv_reachable w1 = true ->
         let w2 := set_queue (pre ++ post)%list
                     (set_kv (<[shortId := longUrl]> (URL_KV w1)) w1) in
         URL_KV w2 !! shortId = Some longUrl
         /\ handleRedirect shortId w2
            = (Ret (redirect_to (URL_href longUrl) 302), w2)
         /\ (location (redirect_to (URL_href longUrl) 302) = Some longUrl
             <-> URL_href longUrl = longUrl).
Proof.
  intros E H201.
  destruct (handleCreate_effect request w)
    as (resp' & w' & E' & _ & [[Hn _] | (id & L & cid & Hb & Hv & Hresp & Hq)]);
    rewrite E in E'; injection E' as <- <-.
  - contradiction.
  - exists id, L, cid. repeat split; try assumption.
    + simpl. apply lookup_insert_eq.
    + apply handleRedirect_found.
      * assumption.
      * simpl. apply lookup_insert_eq.
      * exact Hv.
    + intros Hloc. simpl in Hloc. now injection Hloc.
    + intros Hloc. simpl. now rewrite Hloc.
Qed.

(** C7: a create with a valid longUrl and a customId that matches the
    character class and is already a key of the namespace (whose
    values are valid URLs and whose read is answered) answers 409
    "Custom ID already exists" and leaves the world, the namespace
    included, as it was. *)
Theorem create_conflict
    (w : World) (request : Request) (longUrl customId : string) :
  json_body request = BodyObject longUrl (Some customId) ->
  isValidUrl longUrl = true ->
  custom_id_regex_test customId = true ->
  store_valid (URL_KV w) ->
  kv_reachable w = true ->
  is_Some (URL_KV w !! customId) ->
  handleCreate request w
  = (Ret (new_Response (Text "Custom ID already exists") 409), w).
Proof.
  intros Hb Hv Hre Hst Hr [v Hk].
  assert (Hne : customId <> "") by (intros ->; discriminate Hre).
  js_unfold. rewrite Hb. cbv beta iota. rewrite Hv.
  cbv beta iota delta [negb].
  replace (Js.truthy (Some customId)) with true
    by (simpl; now rewrite (eqb_empty_false _ Hne)).
  cbv beta iota. change (Js.ToString (Some customId)) with customId.
  rewrite Hre, Hr, Hk. cbv beta iota.
  now rewrite (truthy_valid v (Hst _ _ Hk)).
Qed.

(** C8 (as amended): over a namespace whose values are valid URLs, a
    resolve has exactly one of three outcomes.  The read is answered
    and there is a mapping: 302 with [Location] the serialization of
    the stored longUrl.  The read is answered and there is no mapping:
    404 "Short link not found".  The read fails: 500 "Internal Server
    Error". *)
Theorem resolve_outcomes (w : World) (shortId : string) :
  store_valid (URL_KV w) ->
  match kv_reachable w, URL_KV w !! shortId with
  | true, Some longUrl =>
      exists resp,
        handleRedirect shortId w = (Ret resp, w)
        /\ status resp = 302%Z /\ location resp = Some (URL_href longUrl)
  | true, None =>
      handleRedirect shortId w
      = (Ret (new_Response (Text "Short link not found") 404), w)
  | false, _ =>
      handleRedirect shortId w
      = (Ret (new_Response (Text "Internal Server Error") 500),
         set_console (console w ++ ["Error fetching from KV:"]) w)
  end.
Proof.
  intros Hst.
  destruct (kv_reachable w) eqn:Hr.
  - destruct (URL_KV w !! shortId) as [longUrl|] eqn:Hk.
    + exists (redirect_to (URL_href longUrl) 302). repeat split.
      apply handleRedirect_found; try assumption.
      now apply (Hst shortId).
    + rewrite handleRedirect_run. now rewrite Hr, Hk.
  - rewrite handleRedirect_run. now rewrite Hr.
Qed.

(** C9: a resolve writes nothing.  After any number of resolves of
    [shortId] the namespace and the queue of started writes are what
    they were, and one more resolve gives the answer the first one
    gave. *)
Theorem resolve_reads_only (w : World) (shortId : string) (n : nat) :
  let wn := Nat.iter n (fun w => snd (handleRedirect shortId w)) w in
  URL_KV wn = URL_KV w
  /\ waitUntil_queue wn = waitUntil_queue w
  /\ fst (handleRedirect shortId wn) = fst (handleRedirect shortId w).
Proof.
  induction n as [|n [IHkv [IHq IHr]]]; simpl; [repeat split |].
  set (wn := Nat.iter n (fun w => snd (handleRedirect shortId w)) w) in *.
  assert (Hstep : forall v : World,
             URL_KV (snd (handleRedirect shortId v)) = URL_KV v
             /\ waitUntil_queue (snd (handleRedirect shortId v)) = waitUntil_queue v
             /\ fst (handleRedirect shortId (snd (handleRedirect shortId v)))
                = fst (handleRedirect shortId v)).
  { intros v. rewrite !(handleRedirect_run shortId).
    destruct (kv_reachable v) eqn:Hr.
    - destruct (Js.truthy (URL_KV v !! shortId)) eqn:Ht;
        [destruct (isValidUrl (Js.ToString (URL_KV v !! shortId))) eqn:Hv |];
        simpl; rewrite Hr, Ht, ?Hv; repeat split.
    - simpl. rewrite Hr. repeat split. }
  destruct (Hstep wn) as (Hkv & Hq & Hr).
  rewrite Hkv, Hq, Hr. repeat split; assumption.
Qed.

(** C10: in every world reached from an empty namespace by requests
    to this Worker and by the landing or loss of the writes it
    started, the stored values and the values still to be written
    passed [isValidUrl], which rejects the empty string; so they are
    non-empty, and the truthiness test the code applies to a fetched
    value (in the existence check of a custom id and in the resolve)
    holds exactly when the key is present. *)
Theorem truthiness_is_presence (w : World) :
  reachable w ->
  isValidUrl "" = false
  /\ (forall k v, URL_KV w !! k = Some v -> isValidUrl v = true /\ v <> "")
  /\ (forall k v, In (k, v) (waitUntil_queue w) -> isValidUrl v = true /\ v <> "")
  /\ (forall k, Js.truthy (URL_KV w !! k) = true <-> is_Some (URL_KV w !! k)).
Proof.
  intros Hreach. destruct (reachable_valid w Hreach) as [Hst Hq].
  split; [reflexivity |]. split; [| split].
  - intros k v Hk. split; [now apply (Hst k) |].
    apply isValidUrl_nonempty. now apply (Hst k).
  - intros k v Hin. unfold queue_valid in Hq. rewrite List.Forall_forall in Hq.
    specialize (Hq (k, v) Hin). simpl in Hq.
    split; [exact Hq | now apply isValidUrl_nonempty].
  - intros k. destruct (URL_KV w !! k) as [v|] eqn:Hk.
    + split; [intros _; now exists v | intros _].
      apply truthy_valid. now apply (Hst k).
    + split; [discriminate | intros [v Hv]; discriminate].
Qed.

(** ** Further properties of the handlers *)

(** Every answer of [handleRedirect]. *)
Lemma handleRedirect_answers (shortId : string) (w : World) :
  exists resp w',
    handleRedirect shortId w = (Ret resp, w')
    /\ ((exists location, resp = redirect_to location 302)
        \/ resp = new_Response (Text "Short link not found") 404
        \/ resp = new_Response (Text "Internal Server Error") 500).
Proof.
  rewrite handleRedirect_run. destruct (kv_reachable w).
  - destruct (Js.truthy (URL_KV w !! shortId));
      [destruct (isValidUrl (Js.ToString (URL_KV w !! shortId))) |];
      eexists; eexists; (split; [reflexivity |]); eauto.
  - eexists; eexists; (split; [reflexivity |]); eauto.
Qed.

(** Every answer of [handleCreate]. *)
Lemma handleCreate_answers (request : Request) (w : World) :
  exists resp w',
    handleCreate request w = (Ret resp, w')
    /\ ((exists shortId longUrl, resp = created request shortId longUrl)
        \/ resp = new_Response (Text "Invalid URL") 400
        \/ resp = new_Response
                    (Text "Custom ID can only contain letters, numbers, hyphens, and underscores")
                    400
        \/ resp = new_Response (Text "Custom ID already exists") 409
        \/ resp = new_Response (Text "Internal Server Error") 500).
Proof.
  js_unfold.
  destruct (json_body request) as [| |longUrl customId]; cbv beta iota.
  - eexists; eexists; (split; [reflexivity |]); auto 6.
  - eexists; eexists; (split; [reflexivity |]); auto 6.
  - destruct (isValidUrl longUrl); cbv beta iota delta [negb].
    2:{ eexists; eexists; (split; [reflexivity |]); auto 6. }
    destruct (Js.truthy customId); cbv beta iota.
    2:{ rewrite generateRandomId_run.
        eexists; eexists; (split; [reflexivity |]). left. eauto. }
    destruct (custom_id_regex_test (Js.ToString customId)); cbv beta iota.
    2:{ eexists; eexists; (split; [reflexivity |]); auto 6. }
    destruct (kv_reachable w).
    2:{ eexists; eexists; (split; [reflexivity |]); auto 6. }
    destruct (Js.truthy (URL_KV w !! Js.ToString customId)).
    + eexists; eexists; (split; [reflexivity |]); auto 6.
    + eexists; eexists; (split; [reflexivity |]). left. eauto.
Qed.

(** The path of [handleCreate] for a customId that matches the pattern. *)
Lemma handleCreate_custom
    (w : World) (request : Request) (longUrl customId : string) :
  json_body request = BodyObject longUrl (Some customId) ->
  isValidUrl longUrl = true ->
  custom_id_regex_test customId = true ->
  handleCreate request w
  = if kv_reachable w then
      if Js.truthy (URL_KV w !! customId) then
        (Ret (new_Response (Text "Custom ID already exists") 409), w)
      else
        (Ret (created request customId longUrl),
         set_queue (waitUntil_queue w ++ [(customId, longUrl)])%list w)
    else
      (Ret (new_Response (Text "Internal Server Error") 500),
       set_console (console w ++ ["Error creating short link:"]) w).
Proof.
  intros Hb Hv Hre.
  assert (Hne : customId <> "") by (intros ->; discriminate Hre).
  js_unfold. rewrite Hb. cbv beta iota. rewrite Hv.
  cbv beta iota delta [negb].
  replace (Js.truthy (Some customId)) with true
    by (simpl; now rewrite (eqb_empty_false _ Hne)).
  cbv beta iota. change (Js.ToString (Some customId)) with customId.
  rewrite Hre. cbv beta iota.
  destruct (kv_reachable w); [| reflexivity].
  destruct (Js.truthy (URL_KV w !! customId)); reflexivity.
Qed.

(** Where the id of a 201 answer comes from: it was generated from the
    next six draws, or it is the supplied customId, which matched the
    pattern and was not found in the namespace. *)
Lemma handleCreate_created_id
    (w w1 : World) (request : Request) (resp : Response) :
  handleCreate request w = (Ret resp, w1) ->
  status resp = 201%Z ->
  exists shortId longUrl customId,
    json_body request = BodyObject longUrl customId
    /\ isValidUrl longUrl = true
    /\ resp = created request shortId longUrl
    /\ ((Js.truthy customId = false
         /\ shortId = picks (entropy w) (draws w) 6
         /\ w1 = set_queue (waitUntil_queue w ++ [(shortId, longUrl)])%list
                   (set_draws (draws w + 6) w))
        \/ (customId = Some shortId
            /\ custom_id_regex_test shortId = true
            /\ kv_reachable w = true
            /\ Js.truthy (URL_KV w !! shortId) = false
            /\ w1 = set_queue (waitUntil_queue w ++ [(shortId, longUrl)])%list w)).
Proof.
  intros E H201.
  destruct (json_body request) as [| |longUrl customId] eqn:Hb.
  1,2: revert E; js_unfold; rewrite Hb; cbv beta iota; intros E;
       injection E as <- <-; discriminate H201.
  destruct (isValidUrl longUrl) eqn:Hv.
  2:{ revert E; js_unfold; rewrite Hb; cbv beta iota; rewrite Hv;
      cbv beta iota delta [negb]; intros E; injection E as <- <-;
      discriminate H201. }
  destruct (Js.truthy customId) eqn:Ht.
  2:{ rewrite (handleCreate_generated w request longUrl customId Hb Hv Ht) in E.
      injection E as <- <-.
      exists (picks (entropy w) (draws w) 6), longUrl, customId.
      split; [reflexivity |]. split; [exact Hv |]. split; [reflexivity |].
      left. repeat split; assumption || reflexivity. }
  destruct customId as [customId|]; [| discriminate Ht].
  destruct (custom_id_regex_test customId) eqn:Hre.
  2:{ revert E; js_unfold; rewrite Hb; cbv beta iota; rewrite Hv;
      cbv beta iota delta [negb]; rewrite Ht; cbv beta iota;
      change (Js.ToString (Some customId)) with customId; rewrite Hre;
      cbv beta iota; intros E; injection E as <- <-; discriminate H201. }
  rewrite (handleCreate_custom w request longUrl customId Hb Hv Hre) in E.
  destruct (kv_reachable w) eqn:Hr.
  2:{ injection E as <- <-. discriminate H201. }
  destruct (Js.truthy (URL_KV w !! customId)) eqn:He;
    injection E as <- <-; [discriminate H201 |].
  exists customId, longUrl, (Some customId).
  split; [reflexivity |]. split; [exact Hv |]. split; [reflexivity |].
  right. repeat split; assumption || reflexivity.
Qed.

Lemma charAt_length_le (s : string) (i : Z) : (String.length (Js.charAt s i) <= 1)%nat.
Proof.
  unfold Js.charAt. destruct (i <? 0)%Z; [simpl; lia |].
  destruct (String.get (Z.to_nat i) s); simpl; lia.
Qed.

Lemma picks_length_le (ent : nat -> Q) (n : nat) :
  forall start, (String.length (picks ent start n) <= n)%nat.
Proof.
  induction n as [|n IH]; intros start; simpl; [lia |].
  rewrite length_append. specialize (IH (S start)).
  pose proof (charAt_length_le chars
                (Js.Math_floor
                   (Binary64.mul (Binary64.of_real (ent start)) (inject_Z 62))))
    as Hc.
  rewrite <- pick_floor in Hc. lia.
Qed.

Lemma is_alnum_id_char (c : ascii) : is_alnum c = true -> is_id_char c = true.
Proof.
  unfold is_alnum, is_alpha, is_id_char.
  destruct (is_lower c), (is_upper c), (is_digit c); simpl; congruence.
Qed.

Lemma picks_alnum (ent : nat -> Q) (n : nat) :
  forall start,
    (forall i, (0 <= ent i)%Q /\ (ent i < 1)%Q) ->
    forallb is_alnum (list_ascii_of_string (picks ent start n)) = true.
Proof.
  induction n as [|n IH]; intros start Hent; simpl; [reflexivity |].
  destruct (pick_symbol (ent start)) as (c & Ec & Hal); [apply Hent | apply Hent |].
  rewrite Ec, append_cons.
  change ("" ++ picks ent (S start) n) with (picks ent (S start) n).
  simpl. rewrite Hal. now apply IH.
Qed.

Lemma picks_match_pattern (ent : nat -> Q) (start n : nat) :
  (forall i, (0 <= ent i)%Q /\ (ent i < 1)%Q) ->
  custom_id_regex_test (picks ent start (S n)) = true.
Proof.
  intros Hent.
  pose proof (picks_alnum ent (S n) start Hent) as Hal.
  destruct (picks_spec ent (S n) start Hent) as [Hlen _].
  unfold custom_id_regex_test.
  destruct (picks ent start (S n)) as [|c s]; [discriminate Hlen |].
  rewrite forallb_forall in Hal |- *.
  intros x Hx. apply is_alnum_id_char. now apply Hal.
Qed.

(** An id that a create can return never collides with a route of
    [fetch]. *)
Lemma stored_id_not_a_route (w : World) (shortId : string) :
  (custom_id_regex_test shortId = true
   \/ ((forall i, (0 <= entropy w i)%Q /\ (entropy w i < 1)%Q)
       /\ shortId = picks (entropy w) (draws w) 6)) ->
  custom_id_regex_test shortId = true
  /\ shortId <> "" /\ shortId <> "index.html" /\ shortId <> "api/create".
Proof.
  intros H.
  assert (Hre : custom_id_regex_test shortId = true).
  { destruct H as [H | [Hent ->]]; [exact H | now apply picks_match_pattern]. }
  split; [exact Hre |].
  repeat split; intros ->; discriminate Hre.
Qed.

Lemma fetch_resolves (request : Request) (w : World) (shortId : string) :
  pathname request = "/" ++ shortId ->
  shortId <> "" -> shortId <> "index.html" -> shortId <> "api/create" ->
  fetch request w = handleRedirect shortId w.
Proof.
  intros Hp H1 H2 H3. unfold fetch. rewrite Hp.
  change (Js.slice1 ("/" ++ shortId)) with shortId.
  apply String.eqb_neq in H1, H2, H3.
  unfold Js.truthy_str. now rewrite H1, H2, H3.
Qed.

(** Every answer of [fetch]. *)
Lemma fetch_answers (request : Request) (w : World) :
  exists resp w',
    fetch request w = (Ret resp, w')
    /\ (resp = mkResponse Html 200 (Some "text/html") None
        \/ resp = new_Response (Text "Method not allowed") 405
        \/ (exists shortId longUrl, resp = created request shortId longUrl)
        \/ resp = new_Response (Text "Invalid URL") 400
        \/ resp = new_Response
                    (Text "Custom ID can only contain letters, numbers, hyphens, and underscores")
                    400
        \/ resp = new_Response (Text "Custom ID already exists") 409
        \/ resp = new_Response (Text "Internal Server Error") 500
        \/ (exists location, resp = redirect_to location 302)
        \/ resp = new_Response (Text "Short link not found") 404).
Proof.
  unfold fetch.
  destruct (String.eqb (Js.slice1 (pathname request)) "") eqn:He; simpl.
  { eexists; eexists; (split; [reflexivity |]); auto. }
  destruct (String.eqb (Js.slice1 (pathname request)) "index.html"); simpl.
  { eexists; eexists; (split; [reflexivity |]); auto. }
  destruct (String.eqb (Js.slice1 (pathname request)) "api/create").
  - destruct (String.eqb (method request) "POST").
    + destruct (handleCreate_answers request w)
        as (resp & w' & E & [H | [H | [H | [H | H]]]]);
        exists resp, w'; (split; [exact E |]); auto 10.
    + eexists; eexists; (split; [reflexivity |]); auto.
  - unfold Js.truthy_str. rewrite He. simpl.
    destruct (handleRedirect_answers (Js.slice1 (pathname request)) w)
      as (resp & w' & E & [H | [H | H]]);
      exists resp, w'; (split; [exact E |]); auto 10.
Qed.

(** Characters are only removed on the way to the scheme states. *)
Lemma strip_leading_In (c : ascii) (s : string) :
  In c (list_ascii_of_string (UrlSyntax.strip_leading s)) ->
  In c (list_ascii_of_string s).
Proof.
  induction s as [|d s IH]; simpl; intros H; [exact H |].
  destruct (UrlSyntax.is_c0_or_space d); [right; exact (IH H) | exact H].
Qed.

Lemma strip_trailing_In (c : ascii) (s : string) :
  In c (list_ascii_of_string (UrlSyntax.strip_trailing s)) ->
  In c (list_ascii_of_string s).
Proof.
  induction s as [|d s IH]; simpl; intros H; [exact H |].
  destruct (UrlSyntax.is_c0_or_space d && _)%bool; simpl in H;
    [contradiction |].
  destruct H as [H | H]; [left; exact H | right; exact (IH H)].
Qed.

Lemma remove_tab_newline_In (c : ascii) (s : string) :
  In c (list_ascii_of_string (UrlSyntax.remove_tab_newline s)) ->
  In c (list_ascii_of_string s).
Proof.
  induction s as [|d s IH]; simpl; intros H; [exact H |].
  destruct (UrlSyntax.is_tab_or_newline d); simpl in H;
    [right; exact (IH H) |].
  destruct H as [H | H]; [left; exact H | right; exact (IH H)].
Qed.

Lemma scheme_state_colon (input : string) :
  forall buffer scheme rest,
    UrlSyntax.scheme_state buffer input = Some (scheme, rest) ->
    In ":"%char (list_ascii_of_string input).
Proof.
  induction input as [|c input IH]; intros buffer scheme rest H;
    simpl in H |- *; [discriminate |].
  destruct (UrlSyntax.is_scheme_char c).
  - right. eapply IH. exact H.
  - destruct (Ascii.eqb_spec c ":"); [now left | discriminate].
Qed.

Lemma isValidUrl_colon (s : string) :
  isValidUrl s = true -> In ":"%char (list_ascii_of_string s).
Proof.
  unfold isValidUrl, URL_new. intros H.
  apply strip_leading_In, strip_trailing_In, remove_tab_newline_In.
  destruct (UrlSyntax.remove_tab_newline _) as [|c input]; simpl in H |- *;
    [discriminate |].
  destruct (is_alpha c); [| discriminate].
  destruct (UrlSyntax.scheme_state _ input) as [[scheme rest]|] eqn:Hs;
    [| discriminate].
  right. eapply scheme_state_colon. exact Hs.
Qed.

(** X1: the page is served on [/] and on [/index.html] for every
    method and every body, and serving it changes nothing. *)
Theorem static_page_for_any_method (request : Request) (w : World) :
  pathname request = "/" \/ pathname request = "/index.html" ->
  fetch request w = (Ret (mkResponse Html 200 (Some "text/html") None), w).
Proof. intros [Hp | Hp]; unfold fetch; rewrite Hp; reflexivity. Qed.

(** X2: on [/api/create] every method other than POST is answered 405
    "Method not allowed"; the body is not read and nothing changes. *)
Theorem create_route_needs_post (request : Request) (w : World) :
  pathname request = "/api/create" ->
  method request <> "POST" ->
  fetch request w = (Ret (new_Response (Text "Method not allowed") 405), w).
Proof.
  intros Hp Hm. unfold fetch. rewrite Hp. apply String.eqb_neq in Hm.
  simpl. now rewrite Hm.
Qed.

(** X3: the last line of [fetch] is dead code: no request is ever
    answered 404 "Not Found". *)
Theorem fetch_never_answers_not_found (request : Request) (w : World) :
  fst (fetch request w) <> Ret (new_Response (Text "Not Found") 404).
Proof.
  destruct (fetch_answers request w)
    as (resp & w' & E & [H | [H | [(id & L & H) | [H | [H | [H | [H | [(L & H) | H]]]]]]]]);
    rewrite E; simpl; subst resp; discriminate.
Qed.

(** X4: [fetch] never throws: every request gets a response, and its
    status is one of 200, 201, 302, 400, 404, 405, 409 and 500. *)
Theorem fetch_always_answers (request : Request) (w : World) :
  exists resp w',
    fetch request w = (Ret resp, w')
    /\ In (status resp) [200; 201; 302; 400; 404; 405; 409; 500]%Z.
Proof.
  destruct (fetch_answers request w)
    as (resp & w' & E & [H | [H | [(id & L & H) | [H | [H | [H | [H | [(L & H) | H]]]]]]]]);
    exists resp, w'; (split; [exact E |]); subst resp; simpl; tauto.
Qed.

(** X5: only a POST to [/api/create] can start a write or consume
    random draws; every other request leaves the namespace, the queue
    of started writes and the draws untouched. *)
Theorem only_create_starts_writes (request : Request) (w : World) :
  method request <> "POST" \/ Js.slice1 (pathname request) <> "api/create" ->
  URL_KV (snd (fetch request w)) = URL_KV w
  /\ waitUntil_queue (snd (fetch request w)) = waitUntil_queue w
  /\ draws (snd (fetch request w)) = draws w.
Proof.
  intros H. unfold fetch.
  destruct (_ || _)%bool; [repeat split |].
  destruct (String.eqb_spec (Js.slice1 (pathname request)) "api/create") as [Ea | _].
  - destruct (String.eqb_spec (method request) "POST") as [Em | _];
      [tauto | repeat split].
  - destruct (Js.truthy_str _); [| repeat split].
    rewrite handleRedirect_run. destruct (kv_reachable w); [| repeat split].
    destruct (Js.truthy _); [| repeat split].
    destruct (isValidUrl _); repeat split.
Qed.

(** X6: every id returned by a successful create (with draws in
    [0, 1)) matches the pattern of custom ids and is never one of the
    reserved paths, so a request for [/id] always reaches
    [handleRedirect]; once the write has landed, that request is
    answered with the redirect to the serialization of the stored
    longUrl. *)
Theorem created_id_resolves_through_fetch
    (w w1 : World) (request : Request) (resp : Response) :
  (forall i, (0 <= entropy w i)%Q /\ (entropy w i < 1)%Q) ->
  handleCreate request w = (Ret resp, w1) ->
  status resp = 201%Z ->
  exists shortId longUrl,
    resp = created request shortId longUrl
    /\ custom_id_regex_test shortId = true
    /\ forall request' w',
         pathname request' = "/" ++ shortId ->
         fetch request' w' = handleRedirect shortId w'
         /\ (w' = set_kv (<[shortId := longUrl]> (URL_KV w1)) w1 ->
             kv_reachable w1 = true ->
             fetch request' w' = (Ret (redirect_to (URL_href longUrl) 302), w')).
Proof.
  intros Hent E H201.
  destruct (handleCreate_created_id w w1 request resp E H201)
    as (id & L & cid & Hb & Hv & Hresp & Hfrom).
  destruct (stored_id_not_a_route w id) as (Hre & H1 & H2 & H3).
  { destruct Hfrom as [(_ & Hid & _) | (_ & Hre & _)]; [right | left]; auto. }
  exists id, L. split; [exact Hresp |]. split; [exact Hre |].
  intros request' w' Hp.
  rewrite (fetch_resolves request' w' id Hp H1 H2 H3).
  split; [reflexivity |]. intros -> Hr.
  apply handleRedirect_found.
  - exact Hr.
  - simpl. apply lookup_insert_eq.
  - exact Hv.
Qed.

(** X7: a create with a valid longUrl and a customId that matches the
    pattern and is not a key of the namespace (whose read is answered)
    answers 201 with the short URL [origin/customId] and starts the
    write of [customId -> longUrl]; nothing else changes. *)
Theorem create_fresh_custom_id
    (w : World) (request : Request) (longUrl customId : string) :
  json_body request = BodyObject longUrl (Some customId) ->
  isValidUrl longUrl = true ->
  custom_id_regex_test customId = true ->
  kv_reachable w = true ->
  URL_KV w !! customId = None ->
  handleCreate request w
  = (Ret (mkResponse (Json (origin request ++ "/" ++ customId) longUrl) 201
                     (Some "application/json") None),
     set_queue (waitUntil_queue w ++ [(customId, longUrl)])%list w).
Proof.
  intros Hb Hv Hre Hr Hk.
  rewrite (handleCreate_custom w request longUrl customId Hb Hv Hre).
  now rewrite Hr, Hk.
Qed.

(** X8: when the existence check of a customId cannot read the
    namespace, the create answers 500 "Internal Server Error", logs one
    line and starts no write, whatever the namespace holds. *)
Theorem create_read_failure_500
    (w : World) (request : Request) (longUrl customId : string) :
  json_body request = BodyObject longUrl (Some customId) ->
  isValidUrl longUrl = true ->
  custom_id_regex_test customId = true ->
  kv_reachable w = false ->
  handleCreate request w
  = (Ret (new_Response (Text "Internal Server Error") 500),
     set_console (console w ++ ["Error creating short link:"]) w).
Proof.
  intros Hb Hv Hre Hr.
  rewrite (handleCreate_custom w request longUrl customId Hb Hv Hre).
  now rewrite Hr.
Qed.

(** X9: a body that is the JSON [null] makes the destructuring throw;
    the create answers 500 "Internal Server Error", logs one line and
    starts no write. *)
Theorem create_null_body_500 (w : World) (request : Request) :
  json_body request = BodyNull ->
  handleCreate request w
  = (Ret (new_Response (Text "Internal Server Error") 500),
     set_console (console w ++ ["Error creating short link:"]) w).
Proof. intros Hb. js_unfold. now rewrite Hb. Qed.

(** X10: a longUrl that contains no colon (the empty string, a bare
    host name, free text) is never valid: the create answers 400
    "Invalid URL" before looking at the customId or the namespace. *)
Theorem url_without_colon_rejected (s : string) :
  ~ In ":"%char (list_ascii_of_string s) ->
  isValidUrl s = false
  /\ forall (w : World) (request : Request) (customId : Js.value),
       json_body request = BodyObject s customId ->
       handleCreate request w
       = (Ret (new_Response (Text "Invalid URL") 400), w).
Proof.
  intros Hno.
  assert (Hv : isValidUrl s = false).
  { destruct (isValidUrl s) eqn:Hv; [| reflexivity].
    exfalso. apply Hno. now apply isValidUrl_colon. }
  split; [exact Hv |].
  intros w request customId Hb.
  js_unfold. rewrite Hb. cbv beta iota. now rewrite Hv.
Qed.

(** X11: [generateRandomId n] never throws and consumes exactly [n]
    draws; its result has at most [n] characters, and exactly [n]
    alphanumeric characters when every draw lies in [0, 1). *)
Theorem generateRandomId_length (n : nat) (w : World) :
  exists id,
    generateRandomId n w = (Ret id, set_draws (draws w + n) w)
    /\ (String.length id <= n)%nat
    /\ ((forall i, (0 <= entropy w i)%Q /\ (entropy w i < 1)%Q) ->
        String.length id = n
        /\ forallb is_alnum (list_ascii_of_string id) = true).
Proof.
  exists (picks (entropy w) (draws w) n).
  split; [apply generateRandomId_run |].
  split; [apply picks_length_le |].
  intros Hent. split.
  - apply (picks_spec (entropy w) n (draws w) Hent).
  - now apply picks_alnum.
Qed.

(** X12: once the write of a successful create with a customId has
    landed, a second create with the same customId (and any valid
    longUrl) answers 409 and changes nothing: the first link stays. *)
Theorem create_twice_conflicts
    (w w1 : World) (request request' : Request) (resp : Response)
    (longUrl longUrl' customId : string) :
  handleCreate request w = (Ret resp, w1) ->
  status resp = 201%Z ->
  json_body request = BodyObject longUrl (Some customId) ->
  customId <> "" ->
  json_body request' = BodyObject longUrl' (Some customId) ->
  isValidUrl longUrl' = true ->
  kv_reachable w1 = true ->
  let w2 := set_kv (<[customId := longUrl]> (URL_KV w1)) w1 in
  handleCreate request' w2
  = (Ret (new_Response (Text "Custom ID already exists") 409), w2)
  /\ URL_KV w2 !! customId = Some longUrl.
Proof.
  intros E H201 Hb Hne Hb' Hv' Hr w2.
  destruct (handleCreate_created_id w w1 request resp E H201)
    as (id & L & cid & Hb0 & Hv & _ & Hfrom).
  rewrite Hb in Hb0. injection Hb0 as <- <-.
  assert (Hre : custom_id_regex_test customId = true).
  { destruct Hfrom as [(Ht & _) | (Hc & Hre & _)].
    - simpl in Ht. rewrite (eqb_empty_false _ Hne) in Ht. discriminate Ht.
    - injection Hc as <-. exact Hre. }
  assert (Hk : URL_KV w2 !! customId = Some longUrl)
    by (simpl; apply lookup_insert_eq).
  split; [| exact Hk].
  rewrite (handleCreate_custom w2 request' longUrl' customId Hb' Hv' Hre).
  change (kv_reachable w2) with (kv_reachable w1).
  now rewrite Hr, Hk, (truthy_valid longUrl Hv).
Qed.

(** X13: the existence check looks at the namespace only, not at the
    writes that were started and have not landed: two creates with the
    same fresh customId, the second before the write of the first has
    landed, both answer 201, and both writes are started. *)
Theorem creates_race_on_custom_id
    (w : World) (request1 request2 : Request) (longUrl1 longUrl2 customId : string) :
  json_body request1 = BodyObject longUrl1 (Some customId) ->
  json_body request2 = BodyObject longUrl2 (Some customId) ->
  isValidUrl longUrl1 = true ->
  isValidUrl longUrl2 = true ->
  custom_id_regex_test customId = true ->
  kv_reachable w = true ->
  URL_KV w !! customId = None ->
  exists w1 w2,
    handleCreate request1 w = (Ret (created request1 customId longUrl1), w1)
    /\ handleCreate request2 w1 = (Ret (created request2 customId longUrl2), w2)
    /\ URL_KV w2 = URL_KV w
    /\ waitUntil_queue w2
       = (waitUntil_queue w ++ [(customId, longUrl1); (customId, longUrl2)])%list.
Proof.
  intros Hb1 Hb2 Hv1 Hv2 Hre Hr Hk.
  exists (set_queue (waitUntil_queue w ++ [(customId, longUrl1)])%list w).
  eexists. split; [| split].
  - rewrite (handleCreate_custom w request1 longUrl1 customId Hb1 Hv1 Hre).
    now rewrite Hr, Hk.
  - rewrite (handleCreate_custom _ request2 longUrl2 customId Hb2 Hv2 Hre).
    simpl. rewrite Hr, Hk. reflexivity.
  - simpl. split; [reflexivity |]. now rewrite <- app_assoc.
Qed.

(** X14: a create only ever affects the resolution of the id it
    returns: after its write has landed, a resolve of any other id
    gives the answer it gave before the create. *)
Theorem create_leaves_other_ids
    (w w1 : World) (request : Request) (resp : Response) :
  handleCreate request w = (Ret resp, w1) ->
  status resp = 201%Z ->
  exists shortId longUrl,
    resp = created request shortId longUrl
    /\ forall k,
         k <> shortId ->
         fst (handleRedirect k (set_kv (<[shortId := longUrl]> (URL_KV w1)) w1))
         = fst (handleRedirect k w).
Proof.
  intros E H201.
  destruct (handleCreate_created_id w w1 request resp E H201)
    as (id & L & cid & _ & _ & Hresp & Hfrom).
  exists id, L. split; [exact Hresp |]. intros k Hk.
  assert (Hw : URL_KV w1 = URL_KV w /\ kv_reachable w1 = kv_reachable w).
  { destruct Hfrom as [(_ & _ & ->) | (_ & _ & _ & _ & ->)]; now split. }
  destruct Hw as [Hkv Hr].
  rewrite !(handleRedirect_run k). simpl.
  rewrite Hr, Hkv, lookup_insert_ne by congruence.
  destruct (kv_reachable w); [| reflexivity].
  destruct (Js.truthy (URL_KV w !! k)); [| reflexivity].
  destruct (isValidUrl (Js.ToString (URL_KV w !! k))); reflexivity.
Qed.

(** X15: in every response of [fetch], a [Location] header is present
    exactly on status 302, the content type is JSON exactly on status
    201 and HTML exactly on status 200. *)
Theorem fetch_headers (request : Request) (w w' : World) (resp : Response) :
  fetch request w = (Ret resp, w') ->
  (is_Some (location resp) <-> status resp = 302%Z)
  /\ (content_type resp = Some "application/json" <-> status resp = 201%Z)
  /\ (content_type resp = Some "text/html" <-> status resp = 200%Z).
Proof.
  intros E.
  destruct (fetch_answers request w)
    as (resp0 & w0 & E0 & H).
  rewrite E in E0. injection E0 as <- <-.
  destruct H as [H | [H | [(id & L & H) | [H | [H | [H | [H | [(L & H) | H]]]]]]]];
    subst resp; simpl; repeat split; intros H; try discriminate H;
    try reflexivity; try (now destruct H); eauto.
Qed.

(** X16: a resolve treats an empty stored value like a missing key and
    answers 404 "Short link not found"; a non-empty stored value that
    the URL constructor rejects makes [Response.redirect] throw, and
    the resolve answers 500 "Internal Server Error" with one log line.
    Neither changes the namespace. *)
Theorem resolve_foreign_values (w : World) (shortId : string) :
  kv_reachable w = true ->
  (URL_KV w !! shortId = Some "" ->
   handleRedirect shortId w
   = (Ret (new_Response (Text "Short link not found") 404), w))
  /\ (forall v,
        URL_KV w !! shortId = Some v -> v <> "" -> isValidUrl v = false ->
        handleRedirect shortId w
        = (Ret (new_Response (Text "Internal Server Error") 500),
           set_console (console w ++ ["Error fetching from KV:"]) w)).
Proof.
  intros Hr. split.
  - intros Hk. rewrite handleRedirect_run. now rewrite Hr, Hk.
  - intros v Hk Hne Hv. rewrite handleRedirect_run, Hr, Hk. simpl.
    now rewrite (eqb_empty_false _ Hne), Hv.
Qed.

End Worker.

(** ** The claims on concrete requests *)

Lemma taken_valid : store_valid SampleAuthority.parse (URL_KV Sample.taken).
Proof.
  intros k v H. simpl in H. apply lookup_singleton_Some in H.
  destruct H as [_ <-]. reflexivity.
Qed.

Lemma zeros_in_range (i : nat) :
  (0 <= entropy Sample.fresh i)%Q /\ (entropy Sample.fresh i < 1)%Q.
Proof. split; [apply Qle_refl | reflexivity]. Qed.

Lemma after_create_reachable : reachable SampleAuthority.parse SampleAuthority.href
    Sample.after_create.
Proof.
  pose (request := Sample.post (BodyObject "https://new.example/" None)).
  pose (w1 := snd (fetch SampleAuthority.parse SampleAuthority.href request Sample.fresh)).
  apply (reachable_step _ _ w1).
  - apply (reachable_step _ _ Sample.fresh).
    + apply reachable_init; reflexivity.
    + apply step_fetch.
  - exact (step_put_lands SampleAuthority.parse SampleAuthority.href w1 [] "aaaaaa"
             "https://new.example/" [] eq_refl).
Qed.

(** C1, the claim as stated fails: the answer to a POST whose body is
    not JSON has status 500, not 400. *)
Lemma malformed_json_is_answered_500 :
  exists resp,
    fst (fetch SampleAuthority.parse SampleAuthority.href
        (Sample.post BodySyntaxError) Sample.fresh)
    = Ret resp
    /\ status resp = 500%Z /\ status resp <> 400%Z.
Proof.
  eexists. split; [reflexivity |]. split; [reflexivity | discriminate].
Qed.

Lemma create_malformed_json_500_witness :
  fetch SampleAuthority.parse SampleAuthority.href (Sample.post BodySyntaxError) Sample.fresh
  = (Ret (new_Response (Text "Internal Server Error") 500),
     set_console ["Error creating short link:"] Sample.fresh).
Proof.
  apply (create_malformed_json_500 SampleAuthority.parse SampleAuthority.href Sample.fresh
           (Sample.post BodySyntaxError)); reflexivity.
Defined.

(** C2, the claim as stated fails: the generated id ["aaaaaa"] is
    already a key, yet the create answers 201 and starts the put for
    that key. *)
Lemma generated_id_overwrites :
  URL_KV Sample.taken !! "aaaaaa" = Some "https://old.example/"
  /\ handleCreate SampleAuthority.parse
       (Sample.post (BodyObject "https://new.example/" None)) Sample.taken
     = (Ret (created (Sample.post (BodyObject "https://new.example/" None))
                     "aaaaaa" "https://new.example/"),
        set_queue [("aaaaaa", "https://new.example/")]
                  (set_draws 6 Sample.taken)).
Proof. split; reflexivity. Qed.

Lemma create_checks_custom_ids_only_witness :
  exists resp w',
    handleCreate SampleAuthority.parse
      (Sample.post (BodyObject "https://new.example/" (Some "aaaaaa")))
      Sample.taken
    = (Ret resp, w')
    /\ status resp <> 201%Z
    /\ waitUntil_queue w' = waitUntil_queue Sample.taken
    /\ URL_KV w' = URL_KV Sample.taken.
Proof.
  apply (proj1 (create_checks_custom_ids_only SampleAuthority.parse Sample.taken
                  (Sample.post (BodyObject "https://new.example/" (Some "aaaaaa")))
                  "https://new.example/") "aaaaaa").
  - reflexivity.
  - discriminate.
  - exact taken_valid.
  - exists "https://old.example/". reflexivity.
Defined.

(** C3, the claim as stated fails: ["mailto:a@b.c"] parses with a null
    host, is valid for [isValidUrl], and the create on it answers 201. *)
Lemma url_without_host_is_valid :
  URL_new SampleAuthority.parse "mailto:a@b.c" = Some (mkURL "mailto" None)
  /\ isValidUrl SampleAuthority.parse "mailto:a@b.c" = true
  /\ handleCreate SampleAuthority.parse
       (Sample.post (BodyObject "mailto:a@b.c" None)) Sample.fresh
     = (Ret (created (Sample.post (BodyObject "mailto:a@b.c" None))
                     "aaaaaa" "mailto:a@b.c"),
        set_queue [("aaaaaa", "mailto:a@b.c")] (set_draws 6 Sample.fresh)).
Proof. repeat split; reflexivity. Qed.

Lemma isValidUrl_is_the_constructor_witness :
  handleCreate SampleAuthority.parse
    (Sample.post (BodyObject "not a url" None)) Sample.fresh
  = (Ret (new_Response (Text "Invalid URL") 400), Sample.fresh).
Proof.
  exact (proj2 (proj2 (proj2 (isValidUrl_is_the_constructor
                                SampleAuthority.parse "not a url")))
           Sample.fresh (Sample.post (BodyObject "not a url" None)) None
           eq_refl eq_refl).
Defined.

(** C4, the claim as stated fails: the empty customId does not match the
    pattern, yet the create answers 201 with a generated id. *)
Lemma empty_custom_id_is_generated :
  custom_id_regex_test "" = false
  /\ handleCreate SampleAuthority.parse
       (Sample.post (BodyObject "https://new.example/" (Some ""))) Sample.fresh
     = (Ret (created (Sample.post (BodyObject "https://new.example/" (Some "")))
                     "aaaaaa" "https://new.example/"),
        set_queue [("aaaaaa", "https://new.example/")]
                  (set_draws 6 Sample.fresh)).
Proof. split; reflexivity. Qed.

Lemma create_rejects_bad_custom_id_witness :
  handleCreate SampleAuthority.parse
    (Sample.post (BodyObject "https://new.example/" (Some "bad id!")))
    Sample.fresh
  = (Ret (new_Response
            (Text "Custom ID can only contain letters, numbers, hyphens, and underscores")
            400),
     Sample.fresh).
Proof.
  apply (proj1 (create_rejects_bad_custom_id SampleAuthority.parse Sample.fresh
                  (Sample.post (BodyObject "https://new.example/" (Some "bad id!")))
                  "https://new.example/" eq_refl) "bad id!").
  - reflexivity.
  - discriminate.
  - reflexivity.
Defined.


Lemma create_resolve_roundtrip_witness :
  handleCreate SampleAuthority.parse
    (Sample.post (BodyObject "https://new.example/" (Some "docs"))) Sample.fresh
  = (Ret (created (Sample.post (BodyObject "https://new.example/" (Some "docs")))
                  "docs" "https://new.example/"),
     set_queue [("docs", "https://new.example/")] Sample.fresh)
  /\ handleRedirect SampleAuthority.parse SampleAuthority.href "docs"
       (set_queue [] (set_kv (<["docs" := "https://new.example/"]> ∅) Sample.fresh))
     = (Ret (redirect_to "https://new.example/" 302),
        set_queue [] (set_kv (<["docs" := "https://new.example/"]> ∅) Sample.fresh)).
Proof.
  split; [reflexivity |].
  destruct (create_resolve_roundtrip SampleAuthority.parse SampleAuthority.href Sample.fresh
              (set_queue [("docs", "https://new.example/")] Sample.fresh)
              (Sample.post (BodyObject "https://new.example/" (Some "docs")))
              (created (Sample.post (BodyObject "https://new.example/" (Some "docs")))
                       "docs" "https://new.example/")
              eq_refl eq_refl)
    as (shortId & longUrl & customId & Hb & _ & Hq & Hres).
  injection Hb as <- <-. simpl in Hq. injection Hq as <-.
  exact (proj1 (proj2 (Hres [] [] eq_refl eq_refl))).
Defined.

(** C6, the claim as stated fails: a create of ["https://new.example"]
    answers 201 and the namespace holds that string once the write has
    landed, but the resolve answers with the serialized URL
    ["https://new.example/"], which is not the stored string. *)
Lemma redirect_location_is_serialized :
  handleCreate SampleAuthority.parse
    (Sample.post (BodyObject "https://new.example" (Some "docs"))) Sample.fresh
  = (Ret (created (Sample.post (BodyObject "https://new.example" (Some "docs")))
                  "docs" "https://new.example"),
     set_queue [("docs", "https://new.example")] Sample.fresh)
  /\ exists resp,
       handleRedirect SampleAuthority.parse SampleAuthority.href "docs"
         (set_queue [] (set_kv (<["docs" := "https://new.example"]> ∅) Sample.fresh))
       = (Ret resp,
          set_queue [] (set_kv (<["docs" := "https://new.example"]> ∅) Sample.fresh))
       /\ location resp = Some "https://new.example/"
       /\ location resp <> Some "https://new.example".
Proof.
  split; [reflexivity |].
  eexists. split; [reflexivity |]. split; [reflexivity | discriminate].
Qed.

(** C8, the claim as stated fails: the namespace holds ["docs"] with
    the valid URL ["https://new.example"], and the resolve answers 302
    with the [Location] ["https://new.example/"], which is not equal to
    the stored longUrl. *)
Lemma resolve_location_is_serialized :
  URL_KV Sample.bare !! "docs" = Some "https://new.example"
  /\ isValidUrl SampleAuthority.parse "https://new.example" = true
  /\ exists resp,
       handleRedirect SampleAuthority.parse SampleAuthority.href "docs" Sample.bare
       = (Ret resp, Sample.bare)
       /\ status resp = 302%Z
       /\ location resp = Some "https://new.example/"
       /\ location resp <> Some "https://new.example".
Proof.
  split; [reflexivity |]. split; [reflexivity |].
  eexists. split; [reflexivity |].
  split; [reflexivity |]. split; [reflexivity | discriminate].
Qed.


Lemma create_conflict_witness :
  handleCreate SampleAuthority.parse
    (Sample.post (BodyObject "https://new.example/" (Some "aaaaaa")))
    Sample.taken
  = (Ret (new_Response (Text "Custom ID already exists") 409), Sample.taken).
Proof.
  apply (create_conflict SampleAuthority.parse Sample.taken
           (Sample.post (BodyObject "https://new.example/" (Some "aaaaaa")))
           "https://new.example/" "aaaaaa").
  - reflexivity.
  - reflexivity.
  - reflexivity.
  - exact taken_valid.
  - reflexivity.
  - exists "https://old.example/". reflexivity.
Defined.

Lemma resolve_outcomes_witness :
  (exists resp,
      handleRedirect SampleAuthority.parse SampleAuthority.href
          "aaaaaa" Sample.taken = (Ret resp, Sample.taken)
      /\ status resp = 302%Z /\ location resp = Some "https://old.example/")
  /\ handleRedirect SampleAuthority.parse SampleAuthority.href "bbbbbb" Sample.taken
     = (Ret (new_Response (Text "Short link not found") 404), Sample.taken)
  /\ handleRedirect SampleAuthority.parse SampleAuthority.href "aaaaaa" Sample.unreachable
     = (Ret (new_Response (Text "Internal Server Error") 500),
        set_console ["Error fetching from KV:"] Sample.unreachable).
Proof.
  split; [| split].
  - exact (resolve_outcomes SampleAuthority.parse SampleAuthority.href
      Sample.taken "aaaaaa" taken_valid).
  - exact (resolve_outcomes SampleAuthority.parse SampleAuthority.href
      Sample.taken "bbbbbb" taken_valid).
  - exact (resolve_outcomes SampleAuthority.parse SampleAuthority.href Sample.unreachable "aaaaaa"
             taken_valid).
Defined.

Lemma truthiness_is_presence_witness :
  reachable SampleAuthority.parse SampleAuthority.href Sample.after_create
  /\ (Js.truthy (URL_KV Sample.after_create !! "aaaaaa") = true
      <-> is_Some (URL_KV Sample.after_create !! "aaaaaa"))
  /\ (Js.truthy (URL_KV Sample.after_create !! "bbbbbb") = true
      <-> is_Some (URL_KV Sample.after_create !! "bbbbbb")).
Proof.
  split; [exact after_create_reachable |].
  pose proof (proj2 (proj2 (proj2
                (truthiness_is_presence SampleAuthority.parse SampleAuthority.href
                    Sample.after_create
                   after_create_reachable)))) as H.
  split; apply H.
Defined.

(** ** The further properties on concrete requests *)

Lemma static_page_for_any_method_witness :
  fetch SampleAuthority.parse SampleAuthority.href
    (mkRequest "POST" "/index.html" "https://sho.rt" BodySyntaxError) Sample.taken
  = (Ret (mkResponse Html 200 (Some "text/html") None), Sample.taken).
Proof.
  apply (static_page_for_any_method SampleAuthority.parse SampleAuthority.href
           (mkRequest "POST" "/index.html" "https://sho.rt" BodySyntaxError)
           Sample.taken).
  right. reflexivity.
Defined.

Lemma create_route_needs_post_witness :
  fetch SampleAuthority.parse SampleAuthority.href
    (mkRequest "GET" "/api/create" "https://sho.rt"
               (BodyObject "https://new.example/" None)) Sample.fresh
  = (Ret (new_Response (Text "Method not allowed") 405), Sample.fresh).
Proof.
  apply (create_route_needs_post SampleAuthority.parse SampleAuthority.href
           (mkRequest "GET" "/api/create" "https://sho.rt"
                      (BodyObject "https://new.example/" None)) Sample.fresh).
  - reflexivity.
  - discriminate.
Defined.

Lemma only_create_starts_writes_witness :
  URL_KV (snd (fetch SampleAuthority.parse SampleAuthority.href
                 (mkRequest "GET" "/aaaaaa" "https://sho.rt" BodySyntaxError)
                 Sample.taken))
  = URL_KV Sample.taken
  /\ waitUntil_queue
       (snd (fetch SampleAuthority.parse SampleAuthority.href
               (mkRequest "GET" "/aaaaaa" "https://sho.rt" BodySyntaxError)
               Sample.taken))
     = waitUntil_queue Sample.taken
  /\ draws (snd (fetch SampleAuthority.parse SampleAuthority.href
                   (mkRequest "GET" "/aaaaaa" "https://sho.rt" BodySyntaxError)
                   Sample.taken))
     = draws Sample.taken.
Proof.
  apply (only_create_starts_writes SampleAuthority.parse SampleAuthority.href
           (mkRequest "GET" "/aaaaaa" "https://sho.rt" BodySyntaxError)
           Sample.taken).
  left. discriminate.
Defined.

Lemma created_id_resolves_through_fetch_witness :
  fetch SampleAuthority.parse SampleAuthority.href
    (mkRequest "GET" "/aaaaaa" "https://sho.rt" BodySyntaxError)
    (set_kv (<["aaaaaa" := "https://new.example/"]> ∅)
       (set_queue [("aaaaaa", "https://new.example/")] (set_draws 6 Sample.fresh)))
  = (Ret (redirect_to "https://new.example/" 302),
     set_kv (<["aaaaaa" := "https://new.example/"]> ∅)
       (set_queue [("aaaaaa", "https://new.example/")] (set_draws 6 Sample.fresh))).
Proof.
  destruct (created_id_resolves_through_fetch SampleAuthority.parse SampleAuthority.href
      Sample.fresh
              (set_queue [("aaaaaa", "https://new.example/")]
                 (set_draws 6 Sample.fresh))
              (Sample.post (BodyObject "https://new.example/" None))
              (created (Sample.post (BodyObject "https://new.example/" None))
                       "aaaaaa" "https://new.example/")
              zeros_in_range eq_refl eq_refl)
    as (shortId & longUrl & Hresp & _ & Hfetch).
  vm_compute in Hresp. injection Hresp as <- <-.
  exact (proj2 (Hfetch (mkRequest "GET" "/aaaaaa" "https://sho.rt" BodySyntaxError)
                  _ eq_refl) eq_refl eq_refl).
Defined.

Lemma create_fresh_custom_id_witness :
  handleCreate SampleAuthority.parse
    (Sample.post (BodyObject "https://new.example/" (Some "my-docs_1")))
    Sample.taken
  = (Ret (mkResponse (Json "https://sho.rt/my-docs_1" "https://new.example/") 201
                     (Some "application/json") None),
     set_queue [("my-docs_1", "https://new.example/")] Sample.taken).
Proof.
  apply (create_fresh_custom_id SampleAuthority.parse Sample.taken
           (Sample.post (BodyObject "https://new.example/" (Some "my-docs_1")))
           "https://new.example/" "my-docs_1"); reflexivity.
Defined.

Lemma create_read_failure_500_witness :
  handleCreate SampleAuthority.parse
    (Sample.post (BodyObject "https://new.example/" (Some "docs")))
    Sample.unreachable
  = (Ret (new_Response (Text "Internal Server Error") 500),
     set_console ["Error creating short link:"] Sample.unreachable).
Proof.
  apply (create_read_failure_500 SampleAuthority.parse Sample.unreachable
           (Sample.post (BodyObject "https://new.example/" (Some "docs")))
           "https://new.example/" "docs"); reflexivity.
Defined.

Lemma create_null_body_500_witness :
  handleCreate SampleAuthority.parse (Sample.post BodyNull) Sample.fresh
  = (Ret (new_Response (Text "Internal Server Error") 500),
     set_console ["Error creating short link:"] Sample.fresh).
Proof.
  apply (create_null_body_500 SampleAuthority.parse Sample.fresh
           (Sample.post BodyNull)).
  reflexivity.
Defined.

Lemma url_without_colon_rejected_witness :
  isValidUrl SampleAuthority.parse "example.com/page" = false
  /\ handleCreate SampleAuthority.parse
       (Sample.post (BodyObject "example.com/page" (Some "aaaaaa"))) Sample.unreachable
     = (Ret (new_Response (Text "Invalid URL") 400), Sample.unreachable).
Proof.
  assert (Hno : ~ In ":"%char (list_ascii_of_string "example.com/page")).
  { simpl. intros H. repeat (destruct H as [H | H]; [discriminate H |]). exact H. }
  destruct (url_without_colon_rejected SampleAuthority.parse "example.com/page" Hno)
    as [Hv Hc].
  split; [exact Hv |].
  exact (Hc Sample.unreachable
           (Sample.post (BodyObject "example.com/page" (Some "aaaaaa")))
           (Some "aaaaaa") eq_refl).
Defined.

Lemma generateRandomId_length_witness :
  exists id,
    generateRandomId 3 Sample.fresh = (Ret id, set_draws 3 Sample.fresh)
    /\ String.length id = 3%nat
    /\ forallb is_alnum (list_ascii_of_string id) = true.
Proof.
  destruct (generateRandomId_length 3 Sample.fresh) as (id & E & _ & Hc).
  destruct (Hc zeros_in_range) as [Hlen Hal].
  exists id. split; [exact E | split; [exact Hlen | exact Hal]].
Defined.

Lemma create_twice_conflicts_witness :
  handleCreate SampleAuthority.parse
    (Sample.post (BodyObject "https://other.example/" (Some "docs")))
    (set_kv (<["docs" := "https://new.example/"]> ∅)
       (set_queue [("docs", "https://new.example/")] Sample.fresh))
  = (Ret (new_Response (Text "Custom ID already exists") 409),
     set_kv (<["docs" := "https://new.example/"]> ∅)
       (set_queue [("docs", "https://new.example/")] Sample.fresh))
  /\ (<["docs" := "https://new.example/"]> ∅ : gmap string string) !! "docs"
     = Some "https://new.example/".
Proof.
  apply (create_twice_conflicts SampleAuthority.parse Sample.fresh
           (set_queue [("docs", "https://new.example/")] Sample.fresh)
           (Sample.post (BodyObject "https://new.example/" (Some "docs")))
           (Sample.post (BodyObject "https://other.example/" (Some "docs")))
           (created (Sample.post (BodyObject "https://new.example/" (Some "docs")))
                    "docs" "https://new.example/")
           "https://new.example/" "https://other.example/" "docs");
    reflexivity || discriminate.
Defined.

Lemma creates_race_on_custom_id_witness :
  exists w1 w2,
    handleCreate SampleAuthority.parse
      (Sample.post (BodyObject "https://new.example/" (Some "docs"))) Sample.fresh
    = (Ret (created (Sample.post (BodyObject "https://new.example/" (Some "docs")))
                    "docs" "https://new.example/"), w1)
    /\ handleCreate SampleAuthority.parse
         (Sample.post (BodyObject "https://other.example/" (Some "docs"))) w1
       = (Ret (created (Sample.post (BodyObject "https://other.example/" (Some "docs")))
                       "docs" "https://other.example/"), w2)
    /\ URL_KV w2 = URL_KV Sample.fresh
    /\ waitUntil_queue w2
       = [("docs", "https://new.example/"); ("docs", "https://other.example/")].
Proof.
  apply (creates_race_on_custom_id SampleAuthority.parse Sample.fresh
           (Sample.post (BodyObject "https://new.example/" (Some "docs")))
           (Sample.post (BodyObject "https://other.example/" (Some "docs")))
           "https://new.example/" "https://other.example/" "docs");
    reflexivity.
Defined.

Lemma create_leaves_other_ids_witness :
  fst (handleRedirect SampleAuthority.parse SampleAuthority.href "aaaaaa"
         (set_kv (<["docs" := "https://new.example/"]> (URL_KV Sample.taken))
            (set_queue [("docs", "https://new.example/")] Sample.taken)))
  = fst (handleRedirect SampleAuthority.parse SampleAuthority.href "aaaaaa" Sample.taken).
Proof.
  destruct (create_leaves_other_ids SampleAuthority.parse SampleAuthority.href Sample.taken
              (set_queue [("docs", "https://new.example/")] Sample.taken)
              (Sample.post (BodyObject "https://new.example/" (Some "docs")))
              (created (Sample.post (BodyObject "https://new.example/" (Some "docs")))
                       "docs" "https://new.example/")
              eq_refl eq_refl)
    as (shortId & longUrl & Hresp & Hother).
  vm_compute in Hresp. injection Hresp as <- <-.
  apply (Hother "aaaaaa"). discriminate.
Defined.

Lemma fetch_headers_witness :
  (is_Some (location (redirect_to "https://old.example/" 302))
   <-> status (redirect_to "https://old.example/" 302) = 302%Z)
  /\ (content_type (redirect_to "https://old.example/" 302)
      = Some "application/json"
      <-> status (redirect_to "https://old.example/" 302) = 201%Z)
  /\ (content_type (redirect_to "https://old.example/" 302)
      = Some "text/html"
      <-> status (redirect_to "https://old.example/" 302) = 200%Z).
Proof.
  apply (fetch_headers SampleAuthority.parse SampleAuthority.href
           (mkRequest "GET" "/aaaaaa" "https://sho.rt" BodySyntaxError)
           Sample.taken Sample.taken
           (redirect_to "https://old.example/" 302)).
  reflexivity.
Defined.

Lemma resolve_foreign_values_witness :
  handleRedirect SampleAuthority.parse SampleAuthority.href "blank" Sample.foreign
  = (Ret (new_Response (Text "Short link not found") 404), Sample.foreign)
  /\ handleRedirect SampleAuthority.parse SampleAuthority.href "junk" Sample.foreign
     = (Ret (new_Response (Text "Internal Server Error") 500),
        set_console ["Error fetching from KV:"] Sample.foreign).
Proof.
  destruct (resolve_foreign_values SampleAuthority.parse SampleAuthority.href
              Sample.foreign "blank" eq_refl) as [Hblank _].
  destruct (resolve_foreign_values SampleAuthority.parse SampleAuthority.href
              Sample.foreign "junk" eq_refl) as [_ Hjunk].
  split.
  - apply Hblank. reflexivity.
  - apply (Hjunk "not a url"); [reflexivity | discriminate | reflexivity].
Defined.
